(** * Session: machine presence tracking (src/browser/session.ts)

    A shallow embedding of the [Session] class: the two native timers,
    the idle poll callback, the idle heartbeat callback, [handleLock],
    the three [fire*Event] methods and the window-message handlers.

    Modelling choices.
    - A JavaScript number that the class stores or emits is an integer
      tick count or a difference of two of them, or [NaN] when one of
      the operands is [undefined]; [jsval] keeps exactly these cases.
    - One handler invocation runs to completion on the event loop, so
      the readings of [app.getTickCount()], [idleState.isIdle()] and
      [idleState.elapsedTime()] are taken from one snapshot, [Env].
    - [EventEmitter.emit] is recorded as an append to the log [emitted].
    - [log.writeToLog] has no effect on the class and is left out. *)

From Stdlib Require Import ZArith List String Bool Lia.
Import ListNotations.
Open Scope string_scope.
Open Scope list_scope.
Open Scope Z_scope.

(** ** JavaScript values held in [number] slots *)

Inductive jsval : Type :=
| JUndefined
| JNaN
| JNum (z : Z).

(** [a - b]: [undefined] converts to [NaN], and [NaN] is absorbing. *)
Definition js_sub (a b : jsval) : jsval :=
  match a, b with
  | JNum x, JNum y => JNum (x - y)
  | _, _ => JNaN
  end.

(** ToBoolean: [undefined], [NaN] and [0] are falsy. *)
Definition js_truthy (v : jsval) : bool :=
  match v with
  | JNum z => negb (z =? 0)
  | JNaN | JUndefined => false
  end.

(** [a || b] on two values *)
Definition js_or (a b : jsval) : jsval :=
  if js_truthy a then a else b.

(** ** Emitted events *)

Inductive Payload : Type :=
| IdlePayload (elapsedTime : jsval) (isIdle : bool) (topic type : string)
| ReasonPayload (reason topic type : string).

Record Event : Type := mkEvent { ev_name : string; ev_payload : Payload }.

(** ** Native timers *)

(** Modelled from the spec: the [nativeTimer] class of the host runtime is
    not part of the sources; a timer is its interval and its running flag,
    it is created running, [stop] clears the flag (and is idempotent),
    [reset] sets it, and its callback fires only while it is running. *)
Record nativeTimer : Type := mkTimer { interval : Z; running : bool }.

Definition new_nativeTimer (ms : Z) : nativeTimer :=
  {| interval := ms; running := true |}.
Definition timer_stop (t : nativeTimer) : nativeTimer :=
  {| interval := interval t; running := false |}.
Definition timer_reset (t : nativeTimer) : nativeTimer :=
  {| interval := interval t; running := true |}.
Definition isRunning (t : nativeTimer) : bool := running t.

(** ** The Session object and its environment *)

Record Session : Type := mkSession {
  idleEventTimer : nativeTimer;
  checkIdleStateTimer : nativeTimer;
  idleStartTime : jsval;
  idleEndTime : jsval;
  emitted : list Event
}.

Record Env : Type := mkEnv {
  tickCount : Z;          (* app.getTickCount() *)
  probe_isIdle : bool;    (* idleState.isIdle() *)
  probe_elapsedTime : Z   (* idleState.elapsedTime() *)
}.

Inductive platform : Type := Win32 | Darwin | OtherPlatform.

(** ** A reader/state monad for method bodies *)

Definition M (A : Type) : Type := Env -> Session -> A * Session.

Definition ret {A} (a : A) : M A := fun _ s => (a, s).
Definition bind {A B} (m : M A) (k : A -> M B) : M B :=
  fun e s => let (a, s') := m e s in k a e s'.

Notation "x <- m ;; k" := (bind m (fun x => k))
  (at level 61, m at next level, right associativity).
Notation "m ;; k" := (bind m (fun _ => k))
  (at level 61, right associativity).

Definition exec {A} (m : M A) (e : Env) (s : Session) : Session := snd (m e s).

Definition when (b : bool) (m : M unit) : M unit := if b then m else ret tt.

(** [a || m] with its short circuit: [m] is run only when [a] is falsy. *)
Definition js_or_else (a : jsval) (m : M jsval) : M jsval :=
  if js_truthy a then ret a else m.

(* environment reads *)
Definition app_getTickCount : M Z := fun e s => (tickCount e, s).
Definition idleState_isIdle : M bool := fun e s => (probe_isIdle e, s).
Definition idleState_elapsedTime : M Z := fun e s => (probe_elapsedTime e, s).

(* field reads and writes *)
Definition get_idleStartTime : M jsval := fun _ s => (idleStartTime s, s).
Definition get_idleEndTime : M jsval := fun _ s => (idleEndTime s, s).
Definition set_idleStartTime (v : jsval) : M unit := fun _ s =>
  (tt, mkSession (idleEventTimer s) (checkIdleStateTimer s) v (idleEndTime s) (emitted s)).
Definition set_idleEndTime (v : jsval) : M unit := fun _ s =>
  (tt, mkSession (idleEventTimer s) (checkIdleStateTimer s) (idleStartTime s) v (emitted s)).

(* timer methods, on the two timer fields *)
Definition idleEventTimer_isRunning : M bool :=
  fun _ s => (isRunning (idleEventTimer s), s).
Definition idleEventTimer_stop : M unit := fun _ s =>
  (tt, mkSession (timer_stop (idleEventTimer s)) (checkIdleStateTimer s)
                 (idleStartTime s) (idleEndTime s) (emitted s)).
Definition idleEventTimer_reset : M unit := fun _ s =>
  (tt, mkSession (timer_reset (idleEventTimer s)) (checkIdleStateTimer s)
                 (idleStartTime s) (idleEndTime s) (emitted s)).
Definition checkIdleStateTimer_stop : M unit := fun _ s =>
  (tt, mkSession (idleEventTimer s) (timer_stop (checkIdleStateTimer s))
                 (idleStartTime s) (idleEndTime s) (emitted s)).
Definition checkIdleStateTimer_reset : M unit := fun _ s =>
  (tt, mkSession (idleEventTimer s) (timer_reset (checkIdleStateTimer s))
                 (idleStartTime s) (idleEndTime s) (emitted s)).

(* this.emit(name, payload) *)
Definition emit (name : string) (p : Payload) : M unit := fun _ s =>
  (tt, mkSession (idleEventTimer s) (checkIdleStateTimer s)
                 (idleStartTime s) (idleEndTime s)
                 (emitted s ++ [mkEvent name p])).

(** ** Methods of [Session] *)

(** [fireIdleEvent(isIdle, elapsedTime?)]; an omitted argument is
    [JUndefined]. *)
Definition fireIdleEvent (isIdle : bool) (elapsedTime : jsval) : M unit :=
  reported <- js_or_else elapsedTime
                (probe <- idleState_elapsedTime ;; ret (JNum probe)) ;;
  emit "idle-state-changed"
       (IdlePayload reported isIdle "system" "idle-state-changed").

Definition fireSessionEndEvent (reason : string) : M unit :=
  emit "session-end" (ReasonPayload reason "system" "session-end").

Definition fireSessionEvent (reason : string) : M unit :=
  emit "session-changed" (ReasonPayload reason "system" "session-changed").

(** The callback of [idleEventTimer] (every 60000 ms while idle). *)
Definition idleEventTimer_callback : M unit :=
  now <- app_getTickCount ;;
  start <- get_idleStartTime ;;
  fireIdleEvent true (js_sub (JNum now) start).

(** The callback of [checkIdleStateTimer] (every 1000 ms). *)
Definition checkIdleStateTimer_callback : M unit :=
  isIdle <- idleState_isIdle ;;
  isTimerRunning <- idleEventTimer_isRunning ;;
  ticks <- app_getTickCount ;;
  elapsed <- idleState_elapsedTime ;;
  let timeNow := JNum (ticks - elapsed) in
  if isIdle && negb isTimerRunning then
    set_idleStartTime timeNow ;;
    fireIdleEvent true JUndefined ;;
    idleEventTimer_reset
  else if negb isIdle && isTimerRunning then
    set_idleEndTime timeNow ;;
    e <- get_idleEndTime ;;
    s <- get_idleStartTime ;;
    fireIdleEvent false (js_sub e s) ;;
    idleEventTimer_stop
  else ret tt.

Definition handleLock (locked : bool) : M unit :=
  if locked then
    checkIdleStateTimer_stop ;;
    r <- idleEventTimer_isRunning ;;
    when (negb r)
      (now <- app_getTickCount ;;
       set_idleStartTime (JNum now) ;;
       fireIdleEvent true JUndefined ;;
       idleEventTimer_reset)
  else
    idleEventTimer_stop ;;
    now <- app_getTickCount ;;
    set_idleEndTime (JNum now) ;;
    e <- get_idleEndTime ;;
    s <- get_idleStartTime ;;
    fireIdleEvent false (js_sub e s) ;;
    checkIdleStateTimer_reset.

(** The WM_QUERYENDSESSION hook; [lParam] is the integer read from the
    message buffer. *)
Definition onQueryEndSession (lParam : Z) : M unit :=
  let reason :=
    if lParam =? 0 then "logoff"
    else if lParam =? 1 then "restart or shutdown"
    else "unknown" in
  fireSessionEndEvent reason.

(** The WM_WTSSESSION_CHANGE hook; [wParam] is the integer read from the
    message buffer. *)
Definition onSessionChange (wParam : Z) : M unit :=
  reason <- (if wParam =? 3 then ret "remote-connect"
             else if wParam =? 4 then ret "remote-disconnect"
             else if wParam =? 7 then handleLock true ;; ret "lock"
             else if wParam =? 8 then handleLock false ;; ret "unlock"
             else ret "unknown") ;;
  fireSessionEvent reason.

(** The two notification handlers subscribed on macOS. *)
Definition onScreenIsLocked : M unit :=
  handleLock true ;; fireSessionEvent "lock".

Definition onScreenIsUnlocked : M unit :=
  handleLock false ;; fireSessionEvent "unlock".

(** [new Session()]: the heartbeat timer is created and stopped at once,
    the poll timer is created and reset; both time fields are still
    [undefined] and nothing has been emitted. *)
Definition new_Session : Session :=
  {| idleEventTimer := timer_stop (new_nativeTimer 60000);
     checkIdleStateTimer := timer_reset (new_nativeTimer 1000);
     idleStartTime := JUndefined;
     idleEndTime := JUndefined;
     emitted := [] |}.

(** ** What the event loop can deliver to the object *)

Inductive Signal : Type :=
| PollTick                      (* checkIdleStateTimer is due *)
| Heartbeat                     (* idleEventTimer is due *)
| QueryEndSession (lParam : Z)  (* WM_QUERYENDSESSION *)
| WtsSessionChange (wParam : Z) (* WM_WTSSESSION_CHANGE *)
| ScreenIsLocked                (* com.apple.screenIsLocked *)
| ScreenIsUnlocked.             (* com.apple.screenIsUnlocked *)

(** A timer's callback runs only while the timer is running; a window
    message or notification reaches its handler only on the platform
    whose branch of the constructor registered it.  When a timer fires is
    not decided here: any tick count is accepted, and [well_timed] below
    singles out the histories in which a heartbeat waits for its interval. *)
Definition deliver (p : platform) (sig : Signal) : M unit :=
  match sig with
  | PollTick =>
      fun e s => when (isRunning (checkIdleStateTimer s))
                      checkIdleStateTimer_callback e s
  | Heartbeat =>
      fun e s => when (isRunning (idleEventTimer s))
                      idleEventTimer_callback e s
  | QueryEndSession l =>
      match p with Win32 => onQueryEndSession l | _ => ret tt end
  | WtsSessionChange w =>
      match p with Win32 => onSessionChange w | _ => ret tt end
  | ScreenIsLocked =>
      match p with Darwin => onScreenIsLocked | _ => ret tt end
  | ScreenIsUnlocked =>
      match p with Darwin => onScreenIsUnlocked | _ => ret tt end
  end.

(** Running a whole history of deliveries from a fresh object. *)
Fixpoint run (p : platform) (h : list (Signal * Env)) (s : Session) : Session :=
  match h with
  | [] => s
  | (sig, e) :: h' => run p h' (exec (deliver p sig) e s)
  end.

(** ** Observing the log *)

Definition idle_event (elapsed : jsval) (isIdle : bool) : Event :=
  mkEvent "idle-state-changed"
          (IdlePayload elapsed isIdle "system" "idle-state-changed").

Definition is_idle_state_changed (ev : Event) : bool :=
  (ev_name ev =? "idle-state-changed")%string.

(** The [isIdle] flag of an idle-state-changed event, [None] for the others. *)
Definition idle_flag (ev : Event) : option bool :=
  if is_idle_state_changed ev then
    match ev_payload ev with
    | IdlePayload _ b _ _ => Some b
    | ReasonPayload _ _ _ => None
    end
  else None.

(** The flag of the most recent idle-state-changed event of a log, [d] when
    there is none. *)
Fixpoint last_idle_flag (d : bool) (l : list Event) : bool :=
  match l with
  | [] => d
  | ev :: l' =>
      last_idle_flag (match idle_flag ev with Some b => b | None => d end) l'
  end.

(** The tracker is idle when the last idle-state-changed event said so;
    before any such event it is active. *)
Definition tracker_idle (s : Session) : bool := last_idle_flag false (emitted s).

(** Number of idle-state-changed events of a log with the given flag. *)
Definition count_idle (b : bool) (l : list Event) : nat :=
  List.length (filter (fun ev => match idle_flag ev with
                            | Some b' => Bool.eqb b b'
                            | None => false
                            end) l).

(** The events appended to the log by one computation. *)
Definition events_of {A} (m : M A) (e : Env) (s : Session) : list Event :=
  skipn (List.length (emitted s)) (emitted (exec m e s)).

Definition session_end_event (reason : string) : Event :=
  mkEvent "session-end" (ReasonPayload reason "system" "session-end").

Definition session_changed_event (reason : string) : Event :=
  mkEvent "session-changed" (ReasonPayload reason "system" "session-changed").

(** The reason strings the two hooks can produce. *)
Definition session_end_reasons : list string :=
  ["logoff"; "restart or shutdown"; "unknown"].

Definition session_changed_reasons : list string :=
  ["remote-connect"; "remote-disconnect"; "lock"; "unlock"; "unknown"].

(** The set the specification gives for session-end. *)
Definition spec_session_end_reasons : list string :=
  ["logoff"; "restart-or-shutdown"; "unknown"].

Inductive well_formed_event (e : Env) : Event -> Prop :=
| wf_idle v b :
    js_truthy v = true \/ v = JNum (probe_elapsedTime e) ->
    well_formed_event e (idle_event v b)
| wf_session_end r :
    In r session_end_reasons -> well_formed_event e (session_end_event r)
| wf_session_changed r :
    In r session_changed_reasons -> well_formed_event e (session_changed_event r).

(** The heartbeat timer runs exactly when the tracker is idle. *)
Definition sustain_iff_idle (s : Session) : Prop :=
  isRunning (idleEventTimer s) = tracker_idle s.

(** One delivery either keeps [idleStartTime] or logs an idle start. *)
Definition keeps_start_or_logs (s s' : Session) : Prop :=
  exists evs, emitted s' = emitted s ++ evs
              /\ (idleStartTime s' = idleStartTime s
                  \/ count_idle true evs <> 0%nat).

(** ** Further observations on histories and logs *)

(** Number of samples that are idle right after a sample (or an initial
    state [prev]) that was not, and the converse. *)
Fixpoint rising_edges (prev : bool) (samples : list bool) : nat :=
  match samples with
  | [] => 0%nat
  | b :: rest => ((if b && negb prev then 1 else 0) + rising_edges b rest)%nat
  end.

Fixpoint falling_edges (prev : bool) (samples : list bool) : nat :=
  match samples with
  | [] => 0%nat
  | b :: rest => ((if negb b && prev then 1 else 0) + falling_edges b rest)%nat
  end.

(** A history made of poll ticks only, one per environment snapshot. *)
Definition poll_history (es : list Env) : list (Signal * Env) :=
  map (fun e => (PollTick, e)) es.

Definition is_timer_signal (sig : Signal) : bool :=
  match sig with
  | PollTick | Heartbeat => true
  | _ => false
  end.

Definition is_heartbeat (sig : Signal) : bool :=
  match sig with
  | Heartbeat => true
  | _ => false
  end.

(** The envelope every payload is built with: topic "system", a type equal
    to the event name, and one of the three event names. *)
Definition envelope_ok (ev : Event) : bool :=
  match ev_payload ev with
  | IdlePayload _ _ topic type =>
      (topic =? "system")%string && (type =? ev_name ev)%string
      && (ev_name ev =? "idle-state-changed")%string
  | ReasonPayload _ topic type =>
      (topic =? "system")%string && (type =? ev_name ev)%string
      && ((ev_name ev =? "session-end")%string
          || (ev_name ev =? "session-changed")%string)
  end.

(** The [elapsedTime] of an idle payload is a number (not NaN, not
    undefined); vacuous for the other payloads. *)
Definition elapsed_is_number (ev : Event) : bool :=
  match ev_payload ev with
  | IdlePayload (JNum _) _ _ _ => true
  | IdlePayload _ _ _ _ => false
  | ReasonPayload _ _ _ => true
  end.

Definition is_idle_payload (ev : Event) : bool :=
  match ev_payload ev with
  | IdlePayload _ _ _ _ => true
  | ReasonPayload _ _ _ => false
  end.

(** What a platform's log may contain besides idle-state-changed events:
    anything on Windows, session-changed with lock or unlock on macOS,
    nothing elsewhere. *)
Definition platform_event_ok (p : platform) (ev : Event) : bool :=
  match p, ev_payload ev with
  | _, IdlePayload _ _ _ _ => true
  | Win32, ReasonPayload _ _ _ => true
  | Darwin, ReasonPayload r _ _ =>
      (ev_name ev =? "session-changed")%string
      && ((r =? "lock")%string || (r =? "unlock")%string)
  | OtherPlatform, ReasonPayload _ _ _ => false
  end.

Definition some_timer_running (s : Session) : bool :=
  isRunning (checkIdleStateTimer s) || isRunning (idleEventTimer s).

(** While the heartbeat timer runs, [idleStartTime] holds a number. *)
Definition start_known_while_idle (s : Session) : bool :=
  if isRunning (idleEventTimer s)
  then match idleStartTime s with JNum _ => true | _ => false end
  else true.

(** ** The timer contract for the heartbeat *)

(** Modelled from the spec: [nativeTimer] is not part of the sources; a
    timer created with [new nativeTimer(cb, ms)] runs [cb] no sooner than
    [ms] milliseconds after it was last started by [reset()].  The tick
    count of that start is not a field of [Session]; it is followed here
    beside the object.  [reset()] is called on [idleEventTimer] only where
    the timer was found stopped (session.ts lines 44-47 and 182-185), so the
    timer has been started by a delivery exactly when its running flag went
    from stopped to running. *)
Definition armed_after (s s' : Session) (e : Env) (armed : option Z) : option Z :=
  if negb (isRunning (idleEventTimer s)) && isRunning (idleEventTimer s')
  then Some (tickCount e)
  else armed.

(** A heartbeat that fires is due: the timer was started and its interval
    has passed since. *)
Definition heartbeat_due (s : Session) (e : Env) (armed : option Z) : bool :=
  match armed with
  | Some a => a + interval (idleEventTimer s) <=? tickCount e
  | None => false
  end.

(** A history respects the timer contract when every heartbeat that fires
    is due and the probe's elapsed time is never negative. *)
Fixpoint well_timed (p : platform) (h : list (Signal * Env)) (s : Session)
         (armed : option Z) : bool :=
  match h with
  | [] => true
  | (sig, e) :: h' =>
      let s' := exec (deliver p sig) e s in
      (0 <=? probe_elapsedTime e)
      && (if is_heartbeat sig && isRunning (idleEventTimer s)
          then heartbeat_due s e armed
          else true)
      && well_timed p h' s' (armed_after s s' e armed)
  end.

(** While the heartbeat timer runs, [idleStartTime] is a number no later
    than the start of the timer, and the timer's interval is the 60000 ms
    it was created with. *)
Definition start_before_armed (s : Session) (armed : option Z) : Prop :=
  interval (idleEventTimer s) = 60000
  /\ (isRunning (idleEventTimer s) = true ->
      exists t0 a, idleStartTime s = JNum t0 /\ armed = Some a /\ t0 <= a).

(** * Properties *)

Example poll_then_wake :
  emitted (run Win32 [(PollTick, mkEnv 101000 true 60000);
                      (PollTick, mkEnv 105000 false 20)] new_Session)
  = [idle_event (JNum 60000) true; idle_event (JNum 63980) false].
Proof. reflexivity. Qed.

(** ** Basic facts on [||], on the log and on the monad *)

Lemma js_truthy_false_iff (v : jsval) :
  js_truthy v = false <-> v = JUndefined \/ v = JNaN \/ v = JNum 0.
Proof.
  destruct v as [| |z]; simpl; split; intros H; auto.
  - destruct (Z.eqb_spec z 0); subst; auto; discriminate.
  - destruct H as [H|[H|H]]; try discriminate.
    injection H as ->. reflexivity.
Qed.

Lemma js_or_truthy (a b : jsval) : js_truthy a = true -> js_or a b = a.
Proof. unfold js_or; intros ->; reflexivity. Qed.

Lemma js_or_falsy (a b : jsval) : js_truthy a = false -> js_or a b = b.
Proof. unfold js_or; intros ->; reflexivity. Qed.

Lemma js_or_num_nonzero (z : Z) (b : jsval) : z <> 0 -> js_or (JNum z) b = JNum z.
Proof.
  intros Hz. apply js_or_truthy. simpl.
  destruct (Z.eqb_spec z 0); [contradiction | reflexivity].
Qed.

Lemma exec_unit (m : M unit) (e : Env) (s : Session) : m e s = (tt, exec m e s).
Proof. unfold exec. destruct (m e s) as [[] s1]. reflexivity. Qed.

Lemma skipn_length_app {A} (l l' : list A) : skipn (List.length l) (l ++ l') = l'.
Proof. induction l as [|x l IH]; simpl; auto. Qed.

Lemma events_of_app {A} (m : M A) (e : Env) (s : Session) (evs : list Event) :
  emitted (exec m e s) = emitted s ++ evs -> events_of m e s = evs.
Proof. unfold events_of; intros ->; apply skipn_length_app. Qed.

Lemma last_idle_flag_app (d : bool) (l l' : list Event) :
  last_idle_flag d (l ++ l') = last_idle_flag (last_idle_flag d l) l'.
Proof. revert d; induction l as [|ev l IH]; intros d; simpl; auto. Qed.

Lemma last_idle_flag_idle_event (d : bool) (l : list Event) (v : jsval) (b : bool) :
  last_idle_flag d (l ++ [idle_event v b]) = b.
Proof. rewrite last_idle_flag_app; reflexivity. Qed.

(** Unfolding of the monadic layer down to records. *)
Ltac run_body :=
  cbv [exec handleLock checkIdleStateTimer_callback idleEventTimer_callback
       fireIdleEvent js_or_else fireSessionEvent fireSessionEndEvent
       onQueryEndSession onSessionChange onScreenIsLocked onScreenIsUnlocked
       bind ret when emit
       app_getTickCount idleState_isIdle idleState_elapsedTime
       get_idleStartTime get_idleEndTime set_idleStartTime set_idleEndTime
       idleEventTimer_isRunning idleEventTimer_stop idleEventTimer_reset
       checkIdleStateTimer_stop checkIdleStateTimer_reset
       isRunning timer_stop timer_reset snd fst
       idleEventTimer checkIdleStateTimer idleStartTime idleEndTime emitted
       interval running tickCount probe_isIdle probe_elapsedTime] in *.

Ltac open_state s e :=
  destruct s as [[iv1 r1] [iv2 r2] st en log]; destruct e as [t idle el].

(** ** What each method does to the object, as equations *)

Lemma fireIdleEvent_eq (b : bool) (v : jsval) (e : Env) (s : Session) :
  exec (fireIdleEvent b v) e s =
  mkSession (idleEventTimer s) (checkIdleStateTimer s)
            (idleStartTime s) (idleEndTime s)
            (emitted s ++ [idle_event (js_or v (JNum (probe_elapsedTime e))) b]).
Proof.
  unfold fireIdleEvent, js_or_else, js_or, exec, bind.
  destruct (js_truthy v); reflexivity.
Qed.

Lemma poll_to_idle_eq (e : Env) (s : Session) :
  probe_isIdle e = true -> isRunning (idleEventTimer s) = false ->
  exec checkIdleStateTimer_callback e s =
  mkSession (timer_reset (idleEventTimer s)) (checkIdleStateTimer s)
            (JNum (tickCount e - probe_elapsedTime e)) (idleEndTime s)
            (emitted s ++ [idle_event (JNum (probe_elapsedTime e)) true]).
Proof. open_state s e. run_body. intros -> ->. reflexivity. Qed.

Lemma poll_to_active_eq (e : Env) (s : Session) :
  probe_isIdle e = false -> isRunning (idleEventTimer s) = true ->
  exec checkIdleStateTimer_callback e s =
  mkSession (timer_stop (idleEventTimer s)) (checkIdleStateTimer s)
            (idleStartTime s) (JNum (tickCount e - probe_elapsedTime e))
            (emitted s ++
             [idle_event (js_or (js_sub (JNum (tickCount e - probe_elapsedTime e))
                                        (idleStartTime s))
                                (JNum (probe_elapsedTime e))) false]).
Proof.
  open_state s e. run_body. intros -> ->. cbn. unfold js_or.
  destruct (js_truthy _); reflexivity.
Qed.

Lemma poll_no_edge_eq (e : Env) (s : Session) :
  probe_isIdle e = isRunning (idleEventTimer s) ->
  exec checkIdleStateTimer_callback e s = s.
Proof. open_state s e. run_body. intros ->. destruct r1; reflexivity. Qed.

Lemma handleLock_true_fresh_eq (e : Env) (s : Session) :
  isRunning (idleEventTimer s) = false ->
  exec (handleLock true) e s =
  mkSession (timer_reset (idleEventTimer s)) (timer_stop (checkIdleStateTimer s))
            (JNum (tickCount e)) (idleEndTime s)
            (emitted s ++ [idle_event (JNum (probe_elapsedTime e)) true]).
Proof. open_state s e. run_body. intros ->. reflexivity. Qed.

Lemma handleLock_true_idle_eq (e : Env) (s : Session) :
  isRunning (idleEventTimer s) = true ->
  exec (handleLock true) e s =
  mkSession (idleEventTimer s) (timer_stop (checkIdleStateTimer s))
            (idleStartTime s) (idleEndTime s) (emitted s).
Proof. open_state s e. run_body. intros ->. reflexivity. Qed.

Lemma handleLock_false_eq (e : Env) (s : Session) :
  exec (handleLock false) e s =
  mkSession (timer_stop (idleEventTimer s)) (timer_reset (checkIdleStateTimer s))
            (idleStartTime s) (JNum (tickCount e))
            (emitted s ++
             [idle_event (js_or (js_sub (JNum (tickCount e)) (idleStartTime s))
                                (JNum (probe_elapsedTime e))) false]).
Proof.
  open_state s e. run_body. unfold js_or.
  destruct (js_truthy _); reflexivity.
Qed.

Lemma heartbeat_eq (e : Env) (s : Session) :
  exec idleEventTimer_callback e s =
  mkSession (idleEventTimer s) (checkIdleStateTimer s)
            (idleStartTime s) (idleEndTime s)
            (emitted s ++
             [idle_event (js_or (js_sub (JNum (tickCount e)) (idleStartTime s))
                                (JNum (probe_elapsedTime e))) true]).
Proof.
  open_state s e. run_body. unfold js_or.
  destruct (js_truthy _); reflexivity.
Qed.

(** ** The poll tick *)

(** C1. A poll tick on which the probe reports idle while the heartbeat
    (sustain) timer is not running moves the tracker from active to idle:
    [idleStartTime] becomes the tick count minus the probe's elapsed idle
    time, exactly one idle-state-changed event is emitted, with
    [isIdle = true], and the heartbeat timer is started; nothing else of
    the object changes. *)
Theorem poll_tick_active_to_idle (e : Env) (s : Session) :
  probe_isIdle e = true ->
  isRunning (idleEventTimer s) = false ->
  let s' := exec checkIdleStateTimer_callback e s in
  idleStartTime s' = JNum (tickCount e - probe_elapsedTime e)
  /\ events_of checkIdleStateTimer_callback e s
     = [idle_event (JNum (probe_elapsedTime e)) true]
  /\ emitted s' = emitted s ++ events_of checkIdleStateTimer_callback e s
  /\ count_idle true (events_of checkIdleStateTimer_callback e s) = 1%nat
  /\ isRunning (idleEventTimer s') = true
  /\ tracker_idle s' = true
  /\ idleEndTime s' = idleEndTime s
  /\ checkIdleStateTimer s' = checkIdleStateTimer s.
Proof.
  intros Hidle Hoff s'.
  assert (Hev : events_of checkIdleStateTimer_callback e s
                = [idle_event (JNum (probe_elapsedTime e)) true]).
  { apply events_of_app. rewrite poll_to_idle_eq by assumption. reflexivity. }
  subst s'. rewrite Hev. rewrite poll_to_idle_eq by assumption.
  unfold tracker_idle. simpl emitted. rewrite last_idle_flag_idle_event.
  repeat split.
Qed.

Lemma poll_tick_active_to_idle_witness :
  let e := mkEnv 101000 true 60000 in
  idleStartTime (exec checkIdleStateTimer_callback e new_Session) = JNum 41000
  /\ emitted (exec checkIdleStateTimer_callback e new_Session)
     = [idle_event (JNum 60000) true].
Proof.
  intros e.
  destruct (poll_tick_active_to_idle e new_Session eq_refl eq_refl)
    as (Hstart & Hev & Hlog & _).
  split; [exact Hstart | rewrite Hlog, Hev; reflexivity].
Defined.

(** C2, as stated, fails when the computed span is zero: after an idle
    start back-dated to tick 41000, a poll at tick 102000 on which the probe
    reports not-idle with 61000 elapsed computes [idleEndTime = 41000], so
    the span is 0, and the event carries the probe's 61000 instead. *)
Lemma poll_tick_zero_span_reports_probe :
  let s := run Win32 [(PollTick, mkEnv 101000 true 60000)] new_Session in
  let e := mkEnv 102000 false 61000 in
  let s' := exec checkIdleStateTimer_callback e s in
  probe_isIdle e = false
  /\ isRunning (idleEventTimer s) = true
  /\ js_sub (idleEndTime s') (idleStartTime s') = JNum 0
  /\ events_of checkIdleStateTimer_callback e s = [idle_event (JNum 61000) false]
  /\ events_of checkIdleStateTimer_callback e s
     <> [idle_event (js_sub (idleEndTime s') (idleStartTime s')) false].
Proof. repeat split; try reflexivity. discriminate. Qed.

(** C2 (amended). A poll tick on which the probe reports not-idle while the
    heartbeat timer is running moves the tracker from idle to active:
    [idleEndTime] becomes the tick count minus the probe's elapsed time,
    exactly one idle-state-changed event is emitted, with [isIdle = false],
    and the heartbeat timer is stopped.  The event's [elapsedTime] is
    [idleEndTime - idleStartTime] when that difference is a non-zero number,
    and the probe's elapsed time otherwise. *)
Theorem poll_tick_idle_to_active (e : Env) (s : Session) :
  probe_isIdle e = false ->
  isRunning (idleEventTimer s) = true ->
  let s' := exec checkIdleStateTimer_callback e s in
  let span := js_sub (idleEndTime s') (idleStartTime s') in
  idleEndTime s' = JNum (tickCount e - probe_elapsedTime e)
  /\ events_of checkIdleStateTimer_callback e s
     = [idle_event (if js_truthy span then span
                    else JNum (probe_elapsedTime e)) false]
  /\ emitted s' = emitted s ++ events_of checkIdleStateTimer_callback e s
  /\ (forall t0, idleStartTime s = JNum t0 ->
                 tickCount e - probe_elapsedTime e <> t0 ->
                 events_of checkIdleStateTimer_callback e s
                 = [idle_event (JNum (tickCount e - probe_elapsedTime e - t0)) false])
  /\ isRunning (idleEventTimer s') = false
  /\ tracker_idle s' = false
  /\ idleStartTime s' = idleStartTime s
  /\ checkIdleStateTimer s' = checkIdleStateTimer s.
Proof.
  intros Hact Hon s' span.
  assert (Hs' : s' = exec checkIdleStateTimer_callback e s) by reflexivity.
  rewrite poll_to_active_eq in Hs' by assumption.
  assert (Hspan : span = js_sub (JNum (tickCount e - probe_elapsedTime e))
                                (idleStartTime s)).
  { subst span. rewrite Hs'. reflexivity. }
  assert (Hev : events_of checkIdleStateTimer_callback e s
                = [idle_event (js_or span (JNum (probe_elapsedTime e))) false]).
  { apply events_of_app. fold s'. rewrite Hs', Hspan. reflexivity. }
  rewrite Hev. unfold tracker_idle. rewrite Hs'. simpl.
  rewrite last_idle_flag_idle_event.
  repeat split.
  - rewrite Hspan. reflexivity.
  - intros t0 Ht0 Hne. rewrite Hspan, Ht0. simpl js_sub.
    rewrite js_or_num_nonzero by lia. reflexivity.
Qed.

Lemma poll_tick_idle_to_active_witness :
  let s := run Win32 [(PollTick, mkEnv 101000 true 60000)] new_Session in
  let e := mkEnv 105000 false 20 in
  emitted (exec checkIdleStateTimer_callback e s)
  = emitted s ++ [idle_event (JNum 63980) false].
Proof.
  intros s e.
  destruct (poll_tick_idle_to_active e s eq_refl eq_refl)
    as (_ & _ & Hlog & Hnum & _).
  rewrite Hlog, (Hnum 41000); [reflexivity | reflexivity | simpl; lia].
Defined.

(** ** Lock and unlock *)

(** C3. [handleLock(true)] always stops the poll timer.  If the heartbeat
    timer is not running it sets [idleStartTime] to the raw tick count,
    emits one idle-state-changed event with [isIdle = true] and starts the
    heartbeat timer; if the heartbeat timer is already running it changes
    nothing else.  So two calls in a row, from any state, emit at most one
    [isIdle = true] event. *)
Theorem handleLock_true_spec (e e2 : Env) (s : Session) :
  let s' := exec (handleLock true) e s in
  let s'' := exec (handleLock true) e2 s' in
  isRunning (checkIdleStateTimer s') = false
  /\ emitted s' = emitted s ++ events_of (handleLock true) e s
  /\ (if isRunning (idleEventTimer s)
      then events_of (handleLock true) e s = []
           /\ idleEventTimer s' = idleEventTimer s
           /\ idleStartTime s' = idleStartTime s
      else events_of (handleLock true) e s
             = [idle_event (JNum (probe_elapsedTime e)) true]
           /\ isRunning (idleEventTimer s') = true
           /\ idleStartTime s' = JNum (tickCount e))
  /\ idleEndTime s' = idleEndTime s
  /\ events_of (handleLock true) e2 s' = []
  /\ emitted s'' = emitted s ++ events_of (handleLock true) e s
  /\ (count_idle true (events_of (handleLock true) e s
                       ++ events_of (handleLock true) e2 s') <= 1)%nat.
Proof.
  intros s' s''.
  assert (Hon' : isRunning (idleEventTimer s') = true).
  { subst s'. destruct (isRunning (idleEventTimer s)) eqn:Hr.
    - rewrite handleLock_true_idle_eq by assumption. exact Hr.
    - rewrite handleLock_true_fresh_eq by assumption. reflexivity. }
  assert (H2 : emitted s'' = emitted s').
  { subst s''. rewrite handleLock_true_idle_eq by assumption. reflexivity. }
  assert (Hev2 : events_of (handleLock true) e2 s' = []).
  { apply events_of_app. fold s''. rewrite H2, app_nil_r. reflexivity. }
  rewrite Hev2, app_nil_r, H2. subst s'.
  destruct (isRunning (idleEventTimer s)) eqn:Hr.
  - assert (Hev : events_of (handleLock true) e s = []).
    { apply events_of_app. rewrite handleLock_true_idle_eq by assumption.
      simpl. rewrite app_nil_r. reflexivity. }
    rewrite Hev, app_nil_r. rewrite handleLock_true_idle_eq by assumption.
    simpl. repeat split. unfold count_idle; simpl; lia.
  - assert (Hev : events_of (handleLock true) e s
                  = [idle_event (JNum (probe_elapsedTime e)) true]).
    { apply events_of_app. rewrite handleLock_true_fresh_eq by assumption.
      reflexivity. }
    rewrite Hev. rewrite handleLock_true_fresh_eq by assumption.
    simpl. repeat split. unfold count_idle; simpl; lia.
Qed.

(** C4, as stated, fails when [idleStartTime] holds no number: on a fresh
    object an unlock at tick 100500 computes [idleEndTime - idleStartTime]
    as NaN, and the event carries the probe's elapsed time, 12. *)
Lemma handleLock_false_unset_reports_probe :
  let e := mkEnv 100500 false 12 in
  let s' := exec (handleLock false) e new_Session in
  js_sub (idleEndTime s') (idleStartTime s') = JNaN
  /\ events_of (handleLock false) e new_Session = [idle_event (JNum 12) false]
  /\ events_of (handleLock false) e new_Session
     <> [idle_event (js_sub (idleEndTime s') (idleStartTime s')) false].
Proof. repeat split; try reflexivity. discriminate. Qed.

(** C4 (amended). From every state [handleLock(false)] stops the heartbeat
    timer, sets [idleEndTime] to the tick count, emits exactly one
    idle-state-changed event with [isIdle = false], and restarts the poll
    timer.  The event's [elapsedTime] is [idleEndTime - idleStartTime] when
    that difference is a non-zero number, and the probe's elapsed time
    otherwise (a zero difference, or NaN when [idleStartTime] is unset). *)
Theorem handleLock_false_spec (e : Env) (s : Session) :
  let s' := exec (handleLock false) e s in
  let span := js_sub (idleEndTime s') (idleStartTime s') in
  isRunning (idleEventTimer s') = false
  /\ idleEndTime s' = JNum (tickCount e)
  /\ events_of (handleLock false) e s
     = [idle_event (if js_truthy span then span
                    else JNum (probe_elapsedTime e)) false]
  /\ emitted s' = emitted s ++ events_of (handleLock false) e s
  /\ match idleStartTime s with
     | JNum t0 =>
         events_of (handleLock false) e s
         = [idle_event (JNum (if tickCount e =? t0 then probe_elapsedTime e
                              else tickCount e - t0)) false]
     | JNaN | JUndefined =>
         events_of (handleLock false) e s
         = [idle_event (JNum (probe_elapsedTime e)) false]
     end
  /\ isRunning (checkIdleStateTimer s') = true
  /\ tracker_idle s' = false
  /\ idleStartTime s' = idleStartTime s.
Proof.
  intros s' span. subst span s'.
  assert (Hev : events_of (handleLock false) e s
                = [idle_event (js_or (js_sub (JNum (tickCount e)) (idleStartTime s))
                                     (JNum (probe_elapsedTime e))) false]).
  { apply events_of_app. rewrite handleLock_false_eq. reflexivity. }
  rewrite Hev, handleLock_false_eq.
  unfold tracker_idle. simpl. rewrite last_idle_flag_idle_event.
  repeat split.
  destruct (idleStartTime s) as [| |t0]; try reflexivity.
  unfold js_or. simpl.
  replace (tickCount e - t0 =? 0) with (tickCount e =? t0).
  - destruct (tickCount e =? t0); reflexivity.
  - destruct (Z.eqb_spec (tickCount e) t0), (Z.eqb_spec (tickCount e - t0) 0);
      auto; lia.
Qed.

(** ** The heartbeat *)

(** The heartbeat at an arbitrary tick count, with no assumption on when the
    timer lets it fire: it does nothing unless the heartbeat timer is
    running; when it fires it emits one idle-state-changed event with
    [isIdle = true] and leaves [idleStartTime], [idleEndTime] and both timers
    as they were; the event's [elapsedTime] is [now - idleStartTime] whenever
    the tick count differs from [idleStartTime]. *)
Theorem heartbeat_spec (p : platform) (e : Env) (s : Session) :
  let s' := exec (deliver p Heartbeat) e s in
  let span := js_sub (JNum (tickCount e)) (idleStartTime s) in
  idleEventTimer s' = idleEventTimer s
  /\ checkIdleStateTimer s' = checkIdleStateTimer s
  /\ idleStartTime s' = idleStartTime s
  /\ idleEndTime s' = idleEndTime s
  /\ emitted s' = emitted s ++ events_of (deliver p Heartbeat) e s
  /\ (if isRunning (idleEventTimer s)
      then events_of (deliver p Heartbeat) e s
           = [idle_event (if js_truthy span then span
                          else JNum (probe_elapsedTime e)) true]
           /\ (forall t0, idleStartTime s = JNum t0 -> tickCount e <> t0 ->
                 events_of (deliver p Heartbeat) e s
                 = [idle_event (JNum (tickCount e - t0)) true])
      else s' = s /\ events_of (deliver p Heartbeat) e s = []).
Proof.
  intros s' span.
  destruct (isRunning (idleEventTimer s)) eqn:Hr.
  - assert (Hs' : s' = exec idleEventTimer_callback e s).
    { subst s'. unfold deliver, exec, when. rewrite Hr. reflexivity. }
    assert (Hev : events_of (deliver p Heartbeat) e s
                  = [idle_event (js_or span (JNum (probe_elapsedTime e))) true]).
    { apply events_of_app. fold s'. rewrite Hs', heartbeat_eq. reflexivity. }
    rewrite Hev, Hs', heartbeat_eq. simpl. repeat split.
    intros t0 Ht0 Hne. subst span. rewrite Ht0. simpl js_sub.
    rewrite js_or_num_nonzero by lia. reflexivity.
  - assert (Hs' : s' = s).
    { subst s'. unfold deliver, exec, when. rewrite Hr. reflexivity. }
    assert (Hev : events_of (deliver p Heartbeat) e s = []).
    { apply events_of_app. fold s'. rewrite Hs', app_nil_r. reflexivity. }
    rewrite Hev, Hs', app_nil_r. repeat split.
Qed.

Lemma heartbeat_spec_witness :
  let s := run Darwin [(ScreenIsLocked, mkEnv 5000 false 9)] new_Session in
  let e := mkEnv 65000 false 40 in
  events_of (deliver Darwin Heartbeat) e s = [idle_event (JNum 60000) true]
  /\ idleStartTime (exec (deliver Darwin Heartbeat) e s) = JNum 5000.
Proof.
  intros s e.
  destruct (heartbeat_spec Darwin e s) as (_ & _ & Hst & _ & _ & Hfire).
  split.
  - destruct Hfire as [_ Hnum].
    rewrite (Hnum 5000); [reflexivity | reflexivity | simpl; lia].
  - rewrite Hst. reflexivity.
Defined.

(** ** One poll tick, at most one edge *)

(** C6. One poll tick takes at most one of the two transitions and emits at
    most one idle-state-changed event: the object is left as it was, or it
    goes idle with one [isIdle = true] event, or it goes active with one
    [isIdle = false] event; never an idle start and an idle end together. *)
Theorem poll_tick_at_most_one_edge (e : Env) (s : Session) :
  let s' := exec checkIdleStateTimer_callback e s in
  let evs := events_of checkIdleStateTimer_callback e s in
  emitted s' = emitted s ++ evs
  /\ (List.length evs <= 1)%nat
  /\ (count_idle true evs + count_idle false evs <= 1)%nat
  /\ ~ (count_idle true evs <> 0%nat /\ count_idle false evs <> 0%nat)
  /\ (s' = s
      \/ (exists v, evs = [idle_event v true]
                    /\ isRunning (idleEventTimer s) = false
                    /\ isRunning (idleEventTimer s') = true
                    /\ idleEndTime s' = idleEndTime s)
      \/ (exists v, evs = [idle_event v false]
                    /\ isRunning (idleEventTimer s) = true
                    /\ isRunning (idleEventTimer s') = false
                    /\ idleStartTime s' = idleStartTime s)).
Proof.
  intros s' evs.
  destruct (probe_isIdle e) eqn:Hi, (isRunning (idleEventTimer s)) eqn:Hr.
  - assert (Hs' : s' = s) by (apply poll_no_edge_eq; congruence).
    assert (Hev : evs = []).
    { apply events_of_app. fold s'. rewrite Hs', app_nil_r. reflexivity. }
    rewrite Hev, Hs', app_nil_r. unfold count_idle. simpl.
    repeat split; auto. intros [H _]; apply H; reflexivity.
  - assert (Hs' : s' = exec checkIdleStateTimer_callback e s) by reflexivity.
    rewrite poll_to_idle_eq in Hs' by assumption.
    assert (Hev : evs = [idle_event (JNum (probe_elapsedTime e)) true]).
    { apply events_of_app. fold s'. rewrite Hs'. reflexivity. }
    rewrite Hev, Hs'. unfold count_idle. simpl. repeat split; auto.
    + intros [_ H]; apply H; reflexivity.
    + right; left. eauto.
  - assert (Hs' : s' = exec checkIdleStateTimer_callback e s) by reflexivity.
    rewrite poll_to_active_eq in Hs' by assumption.
    set (v := js_or (js_sub (JNum (tickCount e - probe_elapsedTime e))
                            (idleStartTime s))
                    (JNum (probe_elapsedTime e))) in Hs'.
    assert (Hev : evs = [idle_event v false]).
    { apply events_of_app. fold s'. rewrite Hs'. reflexivity. }
    rewrite Hev, Hs'. unfold count_idle. simpl. repeat split; auto.
    + intros [H _]; apply H; reflexivity.
    + right; right. eauto.
  - assert (Hs' : s' = s) by (apply poll_no_edge_eq; congruence).
    assert (Hev : evs = []).
    { apply events_of_app. fold s'. rewrite Hs', app_nil_r. reflexivity. }
    rewrite Hev, Hs', app_nil_r. unfold count_idle. simpl.
    repeat split; auto. intros [H _]; apply H; reflexivity.
Qed.

Lemma poll_tick_at_most_one_edge_witness :
  let evs := events_of checkIdleStateTimer_callback (mkEnv 101000 true 60000)
                       new_Session in
  evs = [idle_event (JNum 60000) true]
  /\ ~ (count_idle true evs <> 0%nat /\ count_idle false evs <> 0%nat).
Proof.
  intros evs. split; [reflexivity|].
  destruct (poll_tick_at_most_one_edge (mkEnv 101000 true 60000) new_Session)
    as (_ & _ & _ & Hnot & _).
  exact Hnot.
Defined.

(** ** Every delivery extends the log with well-formed events *)

Lemma exec_bind {A B} (m : M A) (k : A -> M B) (e : Env) (s : Session) :
  exec (bind m k) e s = exec (k (fst (m e s))) e (exec m e s).
Proof. unfold exec, bind. destruct (m e s); reflexivity. Qed.

Lemma js_or_probe_ok (v : jsval) (z : Z) :
  js_truthy (js_or v (JNum z)) = true \/ js_or v (JNum z) = JNum z.
Proof. unfold js_or. destruct (js_truthy v) eqn:H; auto. Qed.

Create HintDb session.
#[local] Hint Constructors well_formed_event : session.
#[local] Hint Resolve js_or_probe_ok : session.
#[local] Hint Extern 1 (In _ session_end_reasons) => (simpl; tauto) : session.
#[local] Hint Extern 1 (In _ session_changed_reasons) => (simpl; tauto) : session.
#[local] Hint Extern 1 (_ \/ JNum ?z = JNum ?z) => (right; reflexivity) : session.

(** One event appended, and it is well formed. *)
Ltac one_event :=
  eexists; split;
  [ reflexivity
  | apply Forall_cons; [ apply wf_idle; auto with session | apply Forall_nil ] ].

Ltac no_event :=
  exists []; split; [ rewrite app_nil_r; reflexivity | apply Forall_nil ].

Lemma handleLock_log (b : bool) (e : Env) (s : Session) :
  exists evs, emitted (exec (handleLock b) e s) = emitted s ++ evs
              /\ Forall (well_formed_event e) evs.
Proof.
  destruct b; [destruct (isRunning (idleEventTimer s)) eqn:Hr|].
  - rewrite handleLock_true_idle_eq by assumption. no_event.
  - rewrite handleLock_true_fresh_eq by assumption. one_event.
  - rewrite handleLock_false_eq. one_event.
Qed.

Lemma poll_log (e : Env) (s : Session) :
  exists evs, emitted (exec checkIdleStateTimer_callback e s) = emitted s ++ evs
              /\ Forall (well_formed_event e) evs.
Proof.
  destruct (probe_isIdle e) eqn:Hi, (isRunning (idleEventTimer s)) eqn:Hr.
  - rewrite poll_no_edge_eq by congruence. no_event.
  - rewrite poll_to_idle_eq by assumption. one_event.
  - rewrite poll_to_active_eq by assumption. one_event.
  - rewrite poll_no_edge_eq by congruence. no_event.
Qed.

Lemma heartbeat_log (e : Env) (s : Session) :
  exists evs, emitted (exec idleEventTimer_callback e s) = emitted s ++ evs
              /\ Forall (well_formed_event e) evs.
Proof.
  rewrite heartbeat_eq. one_event.
Qed.

Lemma then_session_changed_log (m : M unit) (r : string) (e : Env) (s : Session) :
  In r session_changed_reasons ->
  (exists evs, emitted (exec m e s) = emitted s ++ evs
               /\ Forall (well_formed_event e) evs) ->
  exists evs, emitted (exec (m ;; fireSessionEvent r) e s) = emitted s ++ evs
              /\ Forall (well_formed_event e) evs.
Proof.
  intros Hr (evs & Hlog & Hwf). rewrite exec_bind.
  exists (evs ++ [session_changed_event r]). split.
  - change (emitted (exec (fireSessionEvent r) e (exec m e s)))
      with (emitted (exec m e s) ++ [session_changed_event r]).
    rewrite Hlog, app_assoc. reflexivity.
  - apply Forall_app. split; [assumption|].
    apply Forall_cons; [apply wf_session_changed; assumption | apply Forall_nil].
Qed.

Lemma onSessionChange_eq (w : Z) (e : Env) (s : Session) :
  exec (onSessionChange w) e s =
  if w =? 3 then exec (fireSessionEvent "remote-connect") e s
  else if w =? 4 then exec (fireSessionEvent "remote-disconnect") e s
  else if w =? 7 then exec (handleLock true ;; fireSessionEvent "lock") e s
  else if w =? 8 then exec (handleLock false ;; fireSessionEvent "unlock") e s
  else exec (fireSessionEvent "unknown") e s.
Proof.
  unfold onSessionChange.
  destruct (w =? 3); [reflexivity|]. destruct (w =? 4); [reflexivity|].
  destruct (w =? 7).
  { rewrite !exec_bind. unfold bind at 1. 
    destruct (handleLock true e s) as [[] s1] eqn:H1. reflexivity. }
  destruct (w =? 8).
  { rewrite !exec_bind. unfold bind at 1.
    destruct (handleLock false e s) as [[] s1] eqn:H1. reflexivity. }
  reflexivity.
Qed.

Lemma onSessionChange_log (w : Z) (e : Env) (s : Session) :
  exists evs, emitted (exec (onSessionChange w) e s) = emitted s ++ evs
              /\ Forall (well_formed_event e) evs.
Proof.
  rewrite onSessionChange_eq.
  assert (Hskip : forall r, In r session_changed_reasons ->
            exists evs, emitted (exec (fireSessionEvent r) e s) = emitted s ++ evs
                        /\ Forall (well_formed_event e) evs).
  { intros r Hr. exists [session_changed_event r]. split; [reflexivity|].
    apply Forall_cons; [apply wf_session_changed; assumption | apply Forall_nil]. }
  destruct (w =? 3); [apply Hskip; auto with session|].
  destruct (w =? 4); [apply Hskip; auto with session|].
  destruct (w =? 7).
  { apply then_session_changed_log; [auto with session | apply handleLock_log]. }
  destruct (w =? 8).
  { apply then_session_changed_log; [auto with session | apply handleLock_log]. }
  apply Hskip; auto with session.
Qed.

Lemma onQueryEndSession_log (l : Z) (e : Env) (s : Session) :
  exists evs, emitted (exec (onQueryEndSession l) e s) = emitted s ++ evs
              /\ Forall (well_formed_event e) evs.
Proof.
  unfold onQueryEndSession.
  destruct (l =? 0); [|destruct (l =? 1)];
    (eexists; split; [reflexivity|];
     apply Forall_cons; [apply wf_session_end; auto with session | apply Forall_nil]).
Qed.

Lemma deliver_log (p : platform) (sig : Signal) (e : Env) (s : Session) :
  exists evs, emitted (exec (deliver p sig) e s) = emitted s ++ evs
              /\ Forall (well_formed_event e) evs.
Proof.
  assert (Hnone : exists evs, emitted (exec (ret tt) e s) = emitted s ++ evs
                              /\ Forall (well_formed_event e) evs) by no_event.
  destruct sig as [| |l|w| |]; simpl deliver.
  - unfold exec, when. destruct (isRunning (checkIdleStateTimer s));
      [apply poll_log | exact Hnone].
  - unfold exec, when. destruct (isRunning (idleEventTimer s));
      [apply heartbeat_log | exact Hnone].
  - destruct p; [apply onQueryEndSession_log | exact Hnone | exact Hnone].
  - destruct p; [apply onSessionChange_log | exact Hnone | exact Hnone].
  - destruct p; [exact Hnone | | exact Hnone].
    apply then_session_changed_log; [auto with session | apply handleLock_log].
  - destruct p; [exact Hnone | | exact Hnone].
    apply then_session_changed_log; [auto with session | apply handleLock_log].
Qed.

Lemma deliver_events_of (p : platform) (sig : Signal) (e : Env) (s : Session) :
  emitted (exec (deliver p sig) e s) = emitted s ++ events_of (deliver p sig) e s
  /\ Forall (well_formed_event e) (events_of (deliver p sig) e s).
Proof.
  destruct (deliver_log p sig e s) as (evs & Hlog & Hwf).
  rewrite (events_of_app _ _ _ _ Hlog). auto.
Qed.

(** ** The [||] default of [fireIdleEvent] *)

(** C10, as stated, fails when the probe itself reads 0: a supplied span of
    exactly 0 is then reported as 0, and the payload equals the supplied
    value although that value is falsy.  An unlock on the very tick of the
    lock, with the probe at 0, reaches this through [handleLock]. *)
Lemma fireIdleEvent_zero_span_zero_probe :
  let e := mkEnv 5000 false 0 in
  let s := run Darwin [(ScreenIsLocked, mkEnv 5000 false 9)] new_Session in
  js_truthy (JNum 0) = false
  /\ events_of (fireIdleEvent false (JNum 0)) e new_Session
     = [idle_event (JNum 0) false]
  /\ js_sub (JNum (tickCount e)) (idleStartTime s) = JNum 0
  /\ events_of (handleLock false) e s = [idle_event (JNum 0) false].
Proof. repeat split. Qed.

(** C10 (amended). [fireIdleEvent] emits exactly one idle-state-changed
    event and changes nothing else.  Its [elapsedTime] is the supplied value
    when that value is truthy; when the supplied value is absent, NaN or 0
    it is the probe's current elapsed time.  So a computed span of exactly 0
    is reported as 0 only when the probe itself reads 0, and every
    idle-state-changed event of any delivery carries an [elapsedTime] that
    is truthy or is the probe's reading. *)
Theorem fireIdleEvent_elapsedTime (isIdle : bool) (v : jsval) (e : Env) (s : Session) :
  let s' := exec (fireIdleEvent isIdle v) e s in
  let reported := if js_truthy v then v else JNum (probe_elapsedTime e) in
  events_of (fireIdleEvent isIdle v) e s = [idle_event reported isIdle]
  /\ emitted s' = emitted s ++ [idle_event reported isIdle]
  /\ (js_truthy v = false <-> v = JUndefined \/ v = JNaN \/ v = JNum 0)
  /\ (js_truthy v = true -> reported = v)
  /\ (v = JUndefined \/ v = JNaN \/ v = JNum 0 ->
      reported = JNum (probe_elapsedTime e))
  /\ (v = JNum 0 -> (reported = JNum 0 <-> probe_elapsedTime e = 0))
  /\ (forall p sig ev,
        In ev (events_of (deliver p sig) e s) ->
        ev_name ev = "idle-state-changed" ->
        exists x b, ev = idle_event x b
                    /\ (js_truthy x = true \/ x = JNum (probe_elapsedTime e)))
  /\ idleEventTimer s' = idleEventTimer s
  /\ checkIdleStateTimer s' = checkIdleStateTimer s
  /\ idleStartTime s' = idleStartTime s
  /\ idleEndTime s' = idleEndTime s.
Proof.
  intros s' reported.
  assert (Hev : events_of (fireIdleEvent isIdle v) e s
                = [idle_event reported isIdle]).
  { apply events_of_app. rewrite fireIdleEvent_eq. reflexivity. }
  rewrite Hev. subst s'. rewrite fireIdleEvent_eq. simpl.
  split; [reflexivity|]. split; [reflexivity|].
  split; [apply js_truthy_false_iff|].
  split; [subst reported; intros ->; reflexivity|].
  split.
  { intros H. apply js_truthy_false_iff in H. subst reported. rewrite H.
    reflexivity. }
  split.
  { intros ->. subst reported. simpl. split.
    - intros H; injection H; auto.
    - intros ->; reflexivity. }
  split; [|repeat split].
  intros p sig ev Hin Hname.
  destruct (deliver_events_of p sig e s) as [_ Hwf].
  rewrite Forall_forall in Hwf. specialize (Hwf ev Hin).
  destruct Hwf as [x b Hx | r _ | r _]; try discriminate Hname. eauto.
Qed.

Lemma fireIdleEvent_elapsedTime_witness :
  let e := mkEnv 5000 false 17 in
  events_of (fireIdleEvent false (JNum 0)) e new_Session
  = [idle_event (JNum 17) false]
  /\ events_of (fireIdleEvent false (JNum 250)) e new_Session
     = [idle_event (JNum 250) false].
Proof.
  intros e. split.
  - destruct (fireIdleEvent_elapsedTime false (JNum 0) e new_Session)
      as (Hev & _ & _ & _ & Hfalsy & _).
    rewrite Hev, (Hfalsy (or_intror (or_intror eq_refl))). reflexivity.
  - destruct (fireIdleEvent_elapsedTime false (JNum 250) e new_Session)
      as (Hev & _ & _ & Htruthy & _).
    rewrite Hev, (Htruthy eq_refl). reflexivity.
Defined.

(** ** Unlock before any idle start *)

(** C9, as stated, fails: with [idleStartTime] never set the emitted
    [elapsedTime] is not [now - idleStartTime] (which is NaN) and does not
    depend on [now] at all: unlocks at ticks 7000 and 9000 both report the
    probe's elapsed time, 35. *)
Lemma handleLock_false_unset_ignores_now :
  idleStartTime new_Session = JUndefined
  /\ events_of (handleLock false) (mkEnv 7000 false 35) new_Session
     = [idle_event (JNum 35) false]
  /\ events_of (handleLock false) (mkEnv 9000 false 35) new_Session
     = [idle_event (JNum 35) false]
  /\ events_of (handleLock false) (mkEnv 7000 false 35) new_Session
     <> [idle_event (js_sub (JNum 7000) (idleStartTime new_Session)) false].
Proof. repeat split. discriminate. Qed.

(** [idleStartTime] is written only together with an idle start in the
    log, so it is still unset as long as no such event was emitted. *)

Lemma count_idle_app (b : bool) (l l' : list Event) :
  count_idle b (l ++ l') = (count_idle b l + count_idle b l')%nat.
Proof. unfold count_idle. rewrite filter_app, length_app. reflexivity. Qed.

Lemma keeps_start_or_logs_refl (s : Session) : keeps_start_or_logs s s.
Proof. exists []. rewrite app_nil_r. auto. Qed.

Lemma keeps_start_or_logs_trans (s s1 s2 : Session) :
  keeps_start_or_logs s s1 -> keeps_start_or_logs s1 s2 ->
  keeps_start_or_logs s s2.
Proof.
  intros (evs1 & Hlog1 & H1) (evs2 & Hlog2 & H2).
  exists (evs1 ++ evs2). split.
  - rewrite Hlog2, Hlog1, app_assoc. reflexivity.
  - rewrite count_idle_app. destruct H1 as [H1|H1], H2 as [H2|H2];
      [left; congruence | right; lia ..].
Qed.

Lemma handleLock_start (b : bool) (e : Env) (s : Session) :
  keeps_start_or_logs s (exec (handleLock b) e s).
Proof.
  destruct b; [destruct (isRunning (idleEventTimer s)) eqn:Hr|].
  - rewrite handleLock_true_idle_eq by assumption.
    exists []. split; [simpl; rewrite app_nil_r; reflexivity | left; reflexivity].
  - rewrite handleLock_true_fresh_eq by assumption.
    eexists; split; [reflexivity | right; discriminate].
  - rewrite handleLock_false_eq. eexists; split; [reflexivity | left; reflexivity].
Qed.

Lemma poll_start (e : Env) (s : Session) :
  keeps_start_or_logs s (exec checkIdleStateTimer_callback e s).
Proof.
  destruct (probe_isIdle e) eqn:Hi, (isRunning (idleEventTimer s)) eqn:Hr.
  - rewrite poll_no_edge_eq by congruence. apply keeps_start_or_logs_refl.
  - rewrite poll_to_idle_eq by assumption.
    eexists; split; [reflexivity | right; discriminate].
  - rewrite poll_to_active_eq by assumption.
    eexists; split; [reflexivity | left; reflexivity].
  - rewrite poll_no_edge_eq by congruence. apply keeps_start_or_logs_refl.
Qed.

Lemma heartbeat_start (e : Env) (s : Session) :
  keeps_start_or_logs s (exec idleEventTimer_callback e s).
Proof.
  rewrite heartbeat_eq. eexists; split; [reflexivity | left; reflexivity].
Qed.

Lemma fireSessionEvent_start (r : string) (e : Env) (s : Session) :
  keeps_start_or_logs s (exec (fireSessionEvent r) e s).
Proof. eexists; split; [reflexivity | left; reflexivity]. Qed.

Lemma fireSessionEndEvent_start (r : string) (e : Env) (s : Session) :
  keeps_start_or_logs s (exec (fireSessionEndEvent r) e s).
Proof. eexists; split; [reflexivity | left; reflexivity]. Qed.

Lemma lock_then_session_changed_start (b : bool) (r : string) (e : Env) (s : Session) :
  keeps_start_or_logs s (exec (handleLock b ;; fireSessionEvent r) e s).
Proof.
  rewrite exec_bind.
  eapply keeps_start_or_logs_trans;
    [apply handleLock_start | apply fireSessionEvent_start].
Qed.

Lemma deliver_start (p : platform) (sig : Signal) (e : Env) (s : Session) :
  keeps_start_or_logs s (exec (deliver p sig) e s).
Proof.
  pose proof (keeps_start_or_logs_refl s) as Hrefl.
  destruct sig as [| |l|w| |]; simpl deliver.
  - unfold exec, when. destruct (isRunning (checkIdleStateTimer s));
      [apply poll_start | exact Hrefl].
  - unfold exec, when. destruct (isRunning (idleEventTimer s));
      [apply heartbeat_start | exact Hrefl].
  - destruct p; try exact Hrefl. apply fireSessionEndEvent_start.
  - destruct p; try exact Hrefl. rewrite onSessionChange_eq.
    destruct (w =? 3); [apply fireSessionEvent_start|].
    destruct (w =? 4); [apply fireSessionEvent_start|].
    destruct (w =? 7); [apply lock_then_session_changed_start|].
    destruct (w =? 8); [apply lock_then_session_changed_start|].
    apply fireSessionEvent_start.
  - destruct p; try exact Hrefl. apply lock_then_session_changed_start.
  - destruct p; try exact Hrefl. apply lock_then_session_changed_start.
Qed.

Lemma run_start (p : platform) (h : list (Signal * Env)) (s : Session) :
  keeps_start_or_logs s (run p h s).
Proof.
  revert s. induction h as [|[sig e] h IH]; intros s; simpl.
  - apply keeps_start_or_logs_refl.
  - eapply keeps_start_or_logs_trans; [apply deliver_start | apply IH].
Qed.

(** C9 (amended). As long as no idle start was emitted (no idle transition
    and no lock so far), [idleStartTime] is still unset.  [handleLock(false)]
    on such an object returns normally and still emits exactly one
    idle-state-changed event with [isIdle = false]; [now - idleStartTime] is
    NaN there, so the event's [elapsedTime] is the probe's elapsed time. *)
Theorem handleLock_false_unset :
  (forall p h,
      count_idle true (emitted (run p h new_Session)) = 0%nat ->
      idleStartTime (run p h new_Session) = JUndefined)
  /\ (forall e s,
        idleStartTime s = JUndefined ->
        exists s',
          handleLock false e s = (tt, s')
          /\ js_sub (JNum (tickCount e)) (idleStartTime s) = JNaN
          /\ events_of (handleLock false) e s
             = [idle_event (JNum (probe_elapsedTime e)) false]
          /\ emitted s' = emitted s ++ events_of (handleLock false) e s
          /\ idleEndTime s' = JNum (tickCount e)
          /\ idleStartTime s' = JUndefined).
Proof.
  split.
  - intros p h Hnone.
    destruct (run_start p h new_Session) as (evs & Hlog & [Hkeep|Hstart]).
    + rewrite Hkeep. reflexivity.
    + rewrite Hlog in Hnone. simpl in Hnone. contradiction.
  - intros e s Hun. exists (exec (handleLock false) e s).
    assert (Hev : events_of (handleLock false) e s
                  = [idle_event (JNum (probe_elapsedTime e)) false]).
    { apply events_of_app. rewrite handleLock_false_eq, Hun. reflexivity. }
    split; [apply exec_unit |].
    rewrite Hev, handleLock_false_eq, Hun. repeat split.
Qed.

Lemma handleLock_false_unset_witness :
  let s := run Win32 [(PollTick, mkEnv 3000 false 10);
                      (WtsSessionChange 3, mkEnv 3500 false 15)] new_Session in
  exists s',
    handleLock false (mkEnv 7000 false 35) s = (tt, s')
    /\ emitted s' = emitted s ++ [idle_event (JNum 35) false].
Proof.
  intros s.
  destruct handleLock_false_unset as [Hreach Hun].
  assert (Hunset : idleStartTime s = JUndefined).
  { apply (Hreach Win32 [(PollTick, mkEnv 3000 false 10);
                         (WtsSessionChange 3, mkEnv 3500 false 15)]).
    reflexivity. }
  destruct (Hun (mkEnv 7000 false 35) s Hunset)
    as (s' & Hrun & _ & Hev & Hlog & _).
  exists s'. split; [exact Hrun | rewrite Hlog, Hev; reflexivity].
Defined.

(** ** Reasons of the session events *)

(** C8, as stated, fails on the spelling of one reason: reason code 1 makes
    the session-end hook emit the reason "restart or shutdown", which is not
    a member of the set logoff, restart-or-shutdown, unknown. *)
Lemma session_end_reason_code_1 :
  events_of (deliver Win32 (QueryEndSession 1)) (mkEnv 5000 false 9) new_Session
  = [session_end_event "restart or shutdown"]
  /\ ~ In "restart or shutdown" spec_session_end_reasons.
Proof.
  split; [reflexivity|].
  simpl. intros [H|[H|[H|[]]]]; discriminate H.
Qed.

(** C8 (amended). Whatever integer the platform supplies, every session-end
    event emitted carries a reason among "logoff", "restart or shutdown" and
    "unknown", and every session-changed event a reason among
    "remote-connect", "remote-disconnect", "lock", "unlock" and "unknown".
    The hooks are total, and a code other than 0 and 1 (session end), or
    other than 3, 4, 7 and 8 (session change), yields exactly one event with
    reason "unknown". *)
Theorem session_reasons_closed (p : platform) (e : Env) (s : Session) :
  (forall sig ev,
      In ev (events_of (deliver p sig) e s) ->
      (ev_name ev = "session-end" ->
       exists r, ev = session_end_event r /\ In r session_end_reasons)
      /\ (ev_name ev = "session-changed" ->
          exists r, ev = session_changed_event r /\ In r session_changed_reasons))
  /\ (forall l,
         events_of (onQueryEndSession l) e s
         = [session_end_event (if l =? 0 then "logoff"
                               else if l =? 1 then "restart or shutdown"
                               else "unknown")])
  /\ (forall l, l <> 0 -> l <> 1 ->
         events_of (onQueryEndSession l) e s = [session_end_event "unknown"])
  /\ (forall w, w <> 3 -> w <> 4 -> w <> 7 -> w <> 8 ->
         events_of (onSessionChange w) e s = [session_changed_event "unknown"]).
Proof.
  split; [|split; [|split]].
  - intros sig ev Hin.
    destruct (deliver_events_of p sig e s) as [_ Hwf].
    rewrite Forall_forall in Hwf. specialize (Hwf ev Hin).
    destruct Hwf as [v b _ | r Hr | r Hr]; split; intros Hname;
      try discriminate Hname; eauto.
  - intros l. apply events_of_app. unfold onQueryEndSession.
    destruct (l =? 0); [|destruct (l =? 1)]; reflexivity.
  - intros l H0 H1. apply events_of_app. unfold onQueryEndSession.
    destruct (Z.eqb_spec l 0); [contradiction|].
    destruct (Z.eqb_spec l 1); [contradiction|]. reflexivity.
  - intros w H3 H4 H7 H8. apply events_of_app. rewrite onSessionChange_eq.
    destruct (Z.eqb_spec w 3); [contradiction|].
    destruct (Z.eqb_spec w 4); [contradiction|].
    destruct (Z.eqb_spec w 7); [contradiction|].
    destruct (Z.eqb_spec w 8); [contradiction|]. reflexivity.
Qed.

Lemma session_reasons_closed_witness :
  events_of (onQueryEndSession 1073741824) (mkEnv 5000 false 9) new_Session
  = [session_end_event "unknown"]
  /\ events_of (onSessionChange 5) (mkEnv 5000 false 9) new_Session
     = [session_changed_event "unknown"]
  /\ exists r, session_changed_event "lock" = session_changed_event r
               /\ In r session_changed_reasons.
Proof.
  destruct (session_reasons_closed Win32 (mkEnv 5000 false 9) new_Session)
    as (Hall & _ & Hend & Hchg).
  split; [apply Hend; lia|]. split; [apply Hchg; lia|].
  apply (Hall (WtsSessionChange 7) (session_changed_event "lock")).
  - vm_compute. right; left; reflexivity.
  - reflexivity.
Defined.

(** ** The heartbeat timer runs exactly while the tracker is idle *)

Lemma last_idle_flag_session_changed (d : bool) (l : list Event) (r : string) :
  last_idle_flag d (l ++ [session_changed_event r]) = last_idle_flag d l.
Proof. rewrite last_idle_flag_app. reflexivity. Qed.

Lemma last_idle_flag_session_end (d : bool) (l : list Event) (r : string) :
  last_idle_flag d (l ++ [session_end_event r]) = last_idle_flag d l.
Proof. rewrite last_idle_flag_app. reflexivity. Qed.

Section Preservation.
Variables (e : Env) (s : Session).
Hypothesis Hinv : sustain_iff_idle s.

Lemma handleLock_keeps (b : bool) : sustain_iff_idle (exec (handleLock b) e s).
Proof.
  unfold sustain_iff_idle, tracker_idle in *. destruct b.
  - destruct (isRunning (idleEventTimer s)) eqn:Hr.
    + rewrite handleLock_true_idle_eq by assumption. simpl.
      rewrite <- Hinv. exact Hr.
    + rewrite handleLock_true_fresh_eq by assumption. simpl.
      rewrite last_idle_flag_idle_event. reflexivity.
  - rewrite handleLock_false_eq. simpl.
    rewrite last_idle_flag_idle_event. reflexivity.
Qed.

Lemma poll_keeps : sustain_iff_idle (exec checkIdleStateTimer_callback e s).
Proof.
  unfold sustain_iff_idle, tracker_idle in *.
  destruct (probe_isIdle e) eqn:Hi, (isRunning (idleEventTimer s)) eqn:Hr.
  - rewrite poll_no_edge_eq by congruence. congruence.
  - rewrite poll_to_idle_eq by assumption. simpl.
    rewrite last_idle_flag_idle_event. reflexivity.
  - rewrite poll_to_active_eq by assumption. simpl.
    rewrite last_idle_flag_idle_event. reflexivity.
  - rewrite poll_no_edge_eq by congruence. congruence.
Qed.

Lemma heartbeat_keeps :
  isRunning (idleEventTimer s) = true ->
  sustain_iff_idle (exec idleEventTimer_callback e s).
Proof.
  intros Hr. unfold sustain_iff_idle, tracker_idle in *.
  rewrite heartbeat_eq. simpl. rewrite last_idle_flag_idle_event. exact Hr.
Qed.

Lemma fireSessionEvent_keeps (r : string) :
  sustain_iff_idle (exec (fireSessionEvent r) e s).
Proof.
  unfold sustain_iff_idle, tracker_idle in *.
  change (emitted (exec (fireSessionEvent r) e s))
    with (emitted s ++ [session_changed_event r]).
  rewrite last_idle_flag_session_changed. exact Hinv.
Qed.

Lemma fireSessionEndEvent_keeps (r : string) :
  sustain_iff_idle (exec (fireSessionEndEvent r) e s).
Proof.
  unfold sustain_iff_idle, tracker_idle in *.
  change (emitted (exec (fireSessionEndEvent r) e s))
    with (emitted s ++ [session_end_event r]).
  rewrite last_idle_flag_session_end. exact Hinv.
Qed.
End Preservation.

Lemma lock_then_session_changed_keeps (b : bool) (r : string) (e : Env) (s : Session) :
  sustain_iff_idle s ->
  sustain_iff_idle (exec (handleLock b ;; fireSessionEvent r) e s).
Proof.
  intros Hinv. rewrite exec_bind.
  apply fireSessionEvent_keeps, handleLock_keeps, Hinv.
Qed.

Lemma deliver_keeps (p : platform) (sig : Signal) (e : Env) (s : Session) :
  sustain_iff_idle s -> sustain_iff_idle (exec (deliver p sig) e s).
Proof.
  intros Hinv. destruct sig as [| |l|w| |]; simpl deliver.
  - unfold exec, when. destruct (isRunning (checkIdleStateTimer s));
      [apply poll_keeps; assumption | exact Hinv].
  - unfold exec, when. destruct (isRunning (idleEventTimer s)) eqn:Hr;
      [apply heartbeat_keeps; assumption | exact Hinv].
  - destruct p; try exact Hinv. apply fireSessionEndEvent_keeps, Hinv.
  - destruct p; try exact Hinv. rewrite onSessionChange_eq.
    destruct (w =? 3); [apply fireSessionEvent_keeps, Hinv|].
    destruct (w =? 4); [apply fireSessionEvent_keeps, Hinv|].
    destruct (w =? 7); [apply lock_then_session_changed_keeps, Hinv|].
    destruct (w =? 8); [apply lock_then_session_changed_keeps, Hinv|].
    apply fireSessionEvent_keeps, Hinv.
  - destruct p; try exact Hinv. apply lock_then_session_changed_keeps, Hinv.
  - destruct p; try exact Hinv. apply lock_then_session_changed_keeps, Hinv.
Qed.

Lemma run_keeps (p : platform) (h : list (Signal * Env)) (s : Session) :
  sustain_iff_idle s -> sustain_iff_idle (run p h s).
Proof.
  revert s. induction h as [|[sig e] h IH]; intros s Hinv; simpl.
  - exact Hinv.
  - apply IH, deliver_keeps, Hinv.
Qed.

(** C5. The heartbeat (sustain) timer is running if and only if the most
    recent idle-state-changed event had [isIdle = true]; on a new object the
    timer is stopped and no event has been emitted.  The equivalence holds
    after construction and is preserved by each poll tick, each heartbeat,
    [handleLock(true)], [handleLock(false)] and every other delivery, hence
    in every state the object can reach. *)
Theorem sustain_timer_runs_iff_idle :
  (isRunning (idleEventTimer new_Session) = false
   /\ emitted new_Session = []
   /\ sustain_iff_idle new_Session)
  /\ (forall e s, sustain_iff_idle s ->
        sustain_iff_idle (exec checkIdleStateTimer_callback e s))
  /\ (forall e s, sustain_iff_idle s -> isRunning (idleEventTimer s) = true ->
        sustain_iff_idle (exec idleEventTimer_callback e s))
  /\ (forall b e s, sustain_iff_idle s ->
        sustain_iff_idle (exec (handleLock b) e s))
  /\ (forall p sig e s, sustain_iff_idle s ->
        sustain_iff_idle (exec (deliver p sig) e s))
  /\ (forall p h,
        isRunning (idleEventTimer (run p h new_Session))
        = last_idle_flag false (emitted (run p h new_Session))).
Proof.
  assert (H0 : sustain_iff_idle new_Session) by reflexivity.
  split; [auto|]. split; [|split; [|split; [|split]]].
  - intros e s H. apply poll_keeps, H.
  - intros e s H Hr. apply heartbeat_keeps; assumption.
  - intros b e s H. apply handleLock_keeps, H.
  - intros p sig e s H. apply deliver_keeps, H.
  - intros p h. apply (run_keeps p h new_Session H0).
Qed.

Lemma sustain_timer_runs_iff_idle_witness :
  let s := exec (handleLock true) (mkEnv 5000 false 9) new_Session in
  sustain_iff_idle s
  /\ sustain_iff_idle (exec (deliver Win32 Heartbeat) (mkEnv 65000 false 40) s)
  /\ sustain_iff_idle (exec (handleLock false) (mkEnv 70000 false 3) s).
Proof.
  intros s.
  destruct sustain_timer_runs_iff_idle as ((_ & _ & H0) & _ & _ & Hlock & Hdel & _).
  assert (Hs : sustain_iff_idle s) by (apply Hlock, H0).
  split; [exact Hs|]. split; [apply Hdel, Hs | apply Hlock, Hs].
Defined.

(** * Further properties *)

(** ** A predicate kept by every handler is kept by every history *)

Section DeliverPreserves.
Variable P : Session -> Prop.
Hypothesis P_handleLock :
  forall b e s, P s -> P (exec (handleLock b) e s).
Hypothesis P_poll :
  forall e s, P s -> isRunning (checkIdleStateTimer s) = true ->
              P (exec checkIdleStateTimer_callback e s).
Hypothesis P_heartbeat :
  forall e s, P s -> isRunning (idleEventTimer s) = true ->
              P (exec idleEventTimer_callback e s).
Hypothesis P_session :
  forall r e s, P s -> P (exec (fireSessionEvent r) e s).
Hypothesis P_session_end :
  forall r e s, P s -> P (exec (fireSessionEndEvent r) e s).

Lemma lock_then_session_changed_preserves (b : bool) (r : string) (e : Env) (s : Session) :
  P s -> P (exec (handleLock b ;; fireSessionEvent r) e s).
Proof. intros H. rewrite exec_bind. apply P_session, P_handleLock, H. Qed.

Lemma deliver_preserves (p : platform) (sig : Signal) (e : Env) (s : Session) :
  P s -> P (exec (deliver p sig) e s).
Proof.
  intros H. destruct sig as [| |l|w| |]; simpl deliver.
  - unfold exec, when. destruct (isRunning (checkIdleStateTimer s)) eqn:Hr;
      [apply P_poll; assumption | exact H].
  - unfold exec, when. destruct (isRunning (idleEventTimer s)) eqn:Hr;
      [apply P_heartbeat; assumption | exact H].
  - destruct p; try exact H. apply P_session_end, H.
  - destruct p; try exact H. rewrite onSessionChange_eq.
    destruct (w =? 3); [apply P_session, H|].
    destruct (w =? 4); [apply P_session, H|].
    destruct (w =? 7); [apply lock_then_session_changed_preserves, H|].
    destruct (w =? 8); [apply lock_then_session_changed_preserves, H|].
    apply P_session, H.
  - destruct p; try exact H. apply lock_then_session_changed_preserves, H.
  - destruct p; try exact H. apply lock_then_session_changed_preserves, H.
Qed.

Lemma run_preserves (p : platform) (h : list (Signal * Env)) (s : Session) :
  P s -> P (run p h s).
Proof.
  revert s. induction h as [|[sig e] h IH]; intros s H; simpl.
  - exact H.
  - apply IH, deliver_preserves, H.
Qed.
End DeliverPreserves.

(** ** Poll ticks follow the probe *)

(** X1. After any poll tick the heartbeat timer runs exactly when the probe
    reported idle on that tick, so a further poll tick on which the probe
    reports the same idle flag changes nothing and emits nothing. *)
Theorem poll_tick_settles (e : Env) (s : Session) :
  isRunning (idleEventTimer (exec checkIdleStateTimer_callback e s))
  = probe_isIdle e
  /\ (forall e2, probe_isIdle e2 = probe_isIdle e ->
         exec checkIdleStateTimer_callback e2
              (exec checkIdleStateTimer_callback e s)
         = exec checkIdleStateTimer_callback e s).
Proof.
  assert (Hflag : isRunning (idleEventTimer (exec checkIdleStateTimer_callback e s))
                  = probe_isIdle e).
  { destruct (probe_isIdle e) eqn:Hi, (isRunning (idleEventTimer s)) eqn:Hr.
    - rewrite poll_no_edge_eq by congruence. exact Hr.
    - rewrite poll_to_idle_eq by assumption. reflexivity.
    - rewrite poll_to_active_eq by assumption. reflexivity.
    - rewrite poll_no_edge_eq by congruence. exact Hr. }
  split; [exact Hflag|].
  intros e2 He2. apply poll_no_edge_eq. congruence.
Qed.

Lemma poll_tick_settles_witness :
  let e := mkEnv 101000 true 60000 in
  let e2 := mkEnv 102000 true 61000 in
  emitted (exec checkIdleStateTimer_callback e2
                (exec checkIdleStateTimer_callback e new_Session))
  = [idle_event (JNum 60000) true].
Proof.
  intros e e2.
  destruct (poll_tick_settles e new_Session) as [_ Hsame].
  rewrite (Hsame e2 eq_refl). reflexivity.
Defined.

Lemma poll_counts (e : Env) (s : Session) :
  let s' := exec checkIdleStateTimer_callback e s in
  let r := isRunning (idleEventTimer s) in
  checkIdleStateTimer s' = checkIdleStateTimer s
  /\ isRunning (idleEventTimer s') = probe_isIdle e
  /\ count_idle true (emitted s')
     = (count_idle true (emitted s)
        + (if probe_isIdle e && negb r then 1 else 0))%nat
  /\ count_idle false (emitted s')
     = (count_idle false (emitted s)
        + (if negb (probe_isIdle e) && r then 1 else 0))%nat.
Proof.
  intros s' r. subst s' r.
  destruct (probe_isIdle e) eqn:Hi, (isRunning (idleEventTimer s)) eqn:Hr; simpl.
  - rewrite poll_no_edge_eq by congruence. repeat split; auto; lia.
  - rewrite poll_to_idle_eq by assumption. simpl.
    rewrite !count_idle_app. repeat split; unfold count_idle; simpl; lia.
  - rewrite poll_to_active_eq by assumption. simpl.
    rewrite !count_idle_app. repeat split; unfold count_idle; simpl; lia.
  - rewrite poll_no_edge_eq by congruence. repeat split; auto; lia.
Qed.

(** X2. Over a history of poll ticks, starting with the poll timer running,
    the number of [isIdle = true] events emitted equals the number of rising
    edges of the probe's idle samples (counted from the heartbeat timer's
    running flag), and the number of [isIdle = false] events equals the
    number of falling edges: no duplicates and no drops. *)
Theorem poll_history_counts_edges (p : platform) (es : list Env) (s : Session) :
  isRunning (checkIdleStateTimer s) = true ->
  let s' := run p (poll_history es) s in
  count_idle true (emitted s')
  = (count_idle true (emitted s)
     + rising_edges (isRunning (idleEventTimer s)) (map probe_isIdle es))%nat
  /\ count_idle false (emitted s')
     = (count_idle false (emitted s)
        + falling_edges (isRunning (idleEventTimer s)) (map probe_isIdle es))%nat.
Proof.
  revert s. induction es as [|e es IH]; intros s Hpoll; simpl.
  - split; lia.
  - unfold exec at 1 2, when. rewrite Hpoll.
    fold (exec checkIdleStateTimer_callback e s).
    destruct (poll_counts e s) as (Htimer & Hflag & Htrue & Hfalse).
    destruct (IH (exec checkIdleStateTimer_callback e s)) as [IHt IHf].
    { rewrite Htimer. exact Hpoll. }
    simpl in IHt, IHf. rewrite IHt, IHf, Hflag, Htrue, Hfalse. split; lia.
Qed.

Lemma poll_history_counts_edges_witness :
  let es := [mkEnv 1000 false 10; mkEnv 2000 true 60000; mkEnv 3000 true 61000;
             mkEnv 4000 false 5; mkEnv 5000 true 60000] in
  count_idle true (emitted (run Win32 (poll_history es) new_Session)) = 2%nat
  /\ count_idle false (emitted (run Win32 (poll_history es) new_Session)) = 1%nat.
Proof.
  intros es.
  destruct (poll_history_counts_edges Win32 es new_Session eq_refl) as [Ht Hf].
  split; [rewrite Ht | rewrite Hf]; reflexivity.
Defined.

(** ** Shape of everything that is ever emitted *)

Lemma well_formed_envelope (e : Env) (ev : Event) :
  well_formed_event e ev -> envelope_ok ev = true.
Proof. intros [v b _ | r _ | r _]; reflexivity. Qed.

Lemma well_formed_elapsed (e : Env) (ev : Event) :
  well_formed_event e ev -> elapsed_is_number ev = true.
Proof.
  intros [v b [Hv|Hv] | r _ | r _]; try reflexivity.
  - destruct v; try discriminate Hv. reflexivity.
  - rewrite Hv. reflexivity.
Qed.

Lemma run_log_forallb (f : Event -> bool) (p : platform) :
  (forall e ev, well_formed_event e ev -> f ev = true) ->
  forall h s, forallb f (emitted s) = true ->
              forallb f (emitted (run p h s)) = true.
Proof.
  intros Hf h. induction h as [|[sig e] h IH]; intros s Hs; simpl.
  - exact Hs.
  - apply IH. destruct (deliver_log p sig e s) as (evs & Hlog & Hwf).
    rewrite Hlog, forallb_app, Hs. simpl.
    apply forallb_forall. intros ev Hin.
    rewrite Forall_forall in Hwf. eapply Hf, Hwf, Hin.
Qed.

(** X3. Every event the object ever emits, on any platform and after any
    history, has topic "system", a type equal to its event name, and one of
    the names idle-state-changed (with an idle payload), session-changed or
    session-end (with a reason payload). *)
Theorem emitted_envelope (p : platform) (h : list (Signal * Env)) :
  forallb envelope_ok (emitted (run p h new_Session)) = true.
Proof.
  apply run_log_forallb; [exact well_formed_envelope | reflexivity].
Qed.

(** X4. Every idle-state-changed event the object ever emits carries a
    number as [elapsedTime], never NaN and never undefined: a span that is
    not a number is always replaced by the probe's reading. *)
Theorem emitted_elapsed_is_number (p : platform) (h : list (Signal * Env)) :
  forallb elapsed_is_number (emitted (run p h new_Session)) = true.
Proof.
  apply run_log_forallb; [exact well_formed_elapsed | reflexivity].
Qed.

(** ** A lock followed by an unlock *)

(** X5. When the lock arrives while the heartbeat timer is stopped, the lock
    emits one [isIdle = true] event and the following unlock emits one
    [isIdle = false] event whose [elapsedTime] is the tick count of the
    unlock minus the tick count of the lock, provided the two differ;
    afterwards the poll timer runs again and the heartbeat timer is
    stopped. *)
Theorem lock_unlock_span (e1 e2 : Env) (s : Session) :
  isRunning (idleEventTimer s) = false ->
  tickCount e2 <> tickCount e1 ->
  let s1 := exec (handleLock true) e1 s in
  let s2 := exec (handleLock false) e2 s1 in
  emitted s2 = emitted s ++ [idle_event (JNum (probe_elapsedTime e1)) true;
                             idle_event (JNum (tickCount e2 - tickCount e1)) false]
  /\ idleStartTime s2 = JNum (tickCount e1)
  /\ idleEndTime s2 = JNum (tickCount e2)
  /\ isRunning (checkIdleStateTimer s2) = true
  /\ isRunning (idleEventTimer s2) = false.
Proof.
  intros Hoff Hne s1 s2. subst s2 s1.
  rewrite handleLock_false_eq, handleLock_true_fresh_eq by assumption. simpl.
  rewrite js_or_num_nonzero by lia. rewrite <- app_assoc. repeat split.
Qed.

Lemma lock_unlock_span_witness :
  emitted (exec (handleLock false) (mkEnv 95000 false 120)
                (exec (handleLock true) (mkEnv 5000 false 9) new_Session))
  = [idle_event (JNum 9) true; idle_event (JNum 90000) false].
Proof.
  destruct (lock_unlock_span (mkEnv 5000 false 9) (mkEnv 95000 false 120)
                             new_Session eq_refl) as (Hlog & _).
  - simpl. lia.
  - exact Hlog.
Defined.

(** X6. When the lock arrives while the heartbeat timer is already running,
    the lock emits nothing and keeps [idleStartTime], so the following
    unlock reports the span since the idle start recorded before the lock,
    not since the lock (provided that span is not zero). *)
Theorem lock_while_idle_unlock_span (e1 e2 : Env) (s : Session) (t0 : Z) :
  isRunning (idleEventTimer s) = true ->
  idleStartTime s = JNum t0 ->
  tickCount e2 <> t0 ->
  let s1 := exec (handleLock true) e1 s in
  let s2 := exec (handleLock false) e2 s1 in
  emitted s1 = emitted s
  /\ emitted s2 = emitted s ++ [idle_event (JNum (tickCount e2 - t0)) false]
  /\ idleStartTime s2 = JNum t0
  /\ idleEndTime s2 = JNum (tickCount e2).
Proof.
  intros Hon Hstart Hne s1 s2. subst s2 s1.
  rewrite handleLock_false_eq, handleLock_true_idle_eq by assumption. simpl.
  rewrite Hstart. simpl js_sub. rewrite js_or_num_nonzero by lia.
  repeat split.
Qed.

Lemma lock_while_idle_unlock_span_witness :
  let s := run Darwin [(PollTick, mkEnv 101000 true 60000)] new_Session in
  emitted (exec (handleLock false) (mkEnv 200000 false 30)
                (exec (handleLock true) (mkEnv 150000 true 109000) s))
  = emitted s ++ [idle_event (JNum 159000) false].
Proof.
  intros s.
  destruct (lock_while_idle_unlock_span (mkEnv 150000 true 109000)
              (mkEnv 200000 false 30) s 41000 eq_refl eq_refl)
    as (_ & Hlog & _).
  - simpl. lia.
  - exact Hlog.
Defined.

(** ** Between a lock and the next unlock *)

Lemma locked_timer_step (p : platform) (sig : Signal) (e : Env) (s : Session) :
  is_timer_signal sig = true ->
  isRunning (checkIdleStateTimer s) = false ->
  isRunning (idleEventTimer s) = true ->
  exec (deliver p sig) e s
  = mkSession (idleEventTimer s) (checkIdleStateTimer s)
              (idleStartTime s) (idleEndTime s)
              (emitted s ++
               if is_heartbeat sig
               then [idle_event (js_or (js_sub (JNum (tickCount e)) (idleStartTime s))
                                       (JNum (probe_elapsedTime e))) true]
               else []).
Proof.
  intros Hsig Hpoll Hon. destruct sig; try discriminate Hsig; simpl.
  - unfold exec, when. rewrite Hpoll. rewrite app_nil_r. destruct s; reflexivity.
  - unfold exec, when. rewrite Hon. apply heartbeat_eq.
Qed.

Lemma locked_timer_run (p : platform) (h : list (Signal * Env)) (s : Session) :
  forallb is_timer_signal (map fst h) = true ->
  isRunning (checkIdleStateTimer s) = false ->
  isRunning (idleEventTimer s) = true ->
  idleEventTimer (run p h s) = idleEventTimer s
  /\ checkIdleStateTimer (run p h s) = checkIdleStateTimer s
  /\ idleStartTime (run p h s) = idleStartTime s
  /\ idleEndTime (run p h s) = idleEndTime s
  /\ exists evs,
       emitted (run p h s) = emitted s ++ evs
       /\ count_idle false evs = 0%nat
       /\ count_idle true evs
          = List.length (filter is_heartbeat (map fst h))
       /\ List.length evs = List.length (filter is_heartbeat (map fst h)).
Proof.
  revert s. induction h as [|[sig e] h IH]; intros s Hsigs Hpoll Hon.
  - simpl. repeat split. exists []. rewrite app_nil_r. repeat split.
  - simpl in Hsigs. apply andb_prop in Hsigs. destruct Hsigs as [Hsig Hsigs].
    simpl run. rewrite (locked_timer_step p sig e s Hsig Hpoll Hon).
    match goal with |- context [run p h ?s1] => set (s1' := s1) end.
    destruct (IH s1' Hsigs Hpoll Hon) as (H1 & H2 & H3 & H4 & evs & Hlog & Hf & Ht & Hlen).
    rewrite H1, H2, H3, H4. repeat split.
    eexists. split; [rewrite Hlog; simpl; rewrite <- app_assoc; reflexivity|].
    simpl map. simpl filter.
    rewrite !count_idle_app, length_app, Hf, Ht, Hlen.
    destruct sig; try discriminate Hsig; simpl; repeat split.
Qed.

(** X7. Between a lock and the next unlock the timers cannot end the idle
    span: after [handleLock(true)], over any history of poll ticks and
    heartbeats, the poll timer stays stopped, the heartbeat timer stays
    running, [idleStartTime] and [idleEndTime] keep their values, no
    [isIdle = false] event is emitted, and exactly one [isIdle = true] event
    is emitted per heartbeat. *)
Theorem timers_inert_while_locked (p : platform) (h : list (Signal * Env))
        (e : Env) (s : Session) :
  forallb is_timer_signal (map fst h) = true ->
  let s1 := exec (handleLock true) e s in
  let s2 := run p h s1 in
  isRunning (checkIdleStateTimer s2) = false
  /\ isRunning (idleEventTimer s2) = true
  /\ idleStartTime s2 = idleStartTime s1
  /\ idleEndTime s2 = idleEndTime s1
  /\ exists evs,
       emitted s2 = emitted s1 ++ evs
       /\ count_idle false evs = 0%nat
       /\ count_idle true evs = List.length (filter is_heartbeat (map fst h))
       /\ List.length evs = List.length (filter is_heartbeat (map fst h)).
Proof.
  intros Hsigs s1 s2.
  assert (Hpoll : isRunning (checkIdleStateTimer s1) = false).
  { subst s1. destruct (isRunning (idleEventTimer s)) eqn:Hr.
    - rewrite handleLock_true_idle_eq by assumption. reflexivity.
    - rewrite handleLock_true_fresh_eq by assumption. reflexivity. }
  assert (Hon : isRunning (idleEventTimer s1) = true).
  { subst s1. destruct (isRunning (idleEventTimer s)) eqn:Hr.
    - rewrite handleLock_true_idle_eq by assumption. exact Hr.
    - rewrite handleLock_true_fresh_eq by assumption. reflexivity. }
  destruct (locked_timer_run p h s1 Hsigs Hpoll Hon)
    as (H1 & H2 & H3 & H4 & Hevs).
  subst s2. rewrite H1, H2. auto.
Qed.

Lemma timers_inert_while_locked_witness :
  let h := [(PollTick, mkEnv 6000 false 3); (Heartbeat, mkEnv 65000 false 8);
            (PollTick, mkEnv 66000 false 2)] in
  let s1 := exec (handleLock true) (mkEnv 5000 false 9) new_Session in
  isRunning (idleEventTimer (run Win32 h s1)) = true
  /\ idleStartTime (run Win32 h s1) = JNum 5000.
Proof.
  intros h s1.
  destruct (timers_inert_while_locked Win32 h (mkEnv 5000 false 9) new_Session
              eq_refl) as (_ & Hon & Hstart & _).
  split; [exact Hon | etransitivity; [exact Hstart | reflexivity]].
Defined.

(** ** Invariants of the two timers *)

Lemma handleLock_timers (b : bool) (e : Env) (s : Session) :
  let s' := exec (handleLock b) e s in
  isRunning (checkIdleStateTimer s') = negb b
  /\ isRunning (idleEventTimer s') = b
  /\ (b = true -> isRunning (idleEventTimer s) = true ->
      idleStartTime s' = idleStartTime s)
  /\ (b = true -> isRunning (idleEventTimer s) = false ->
      idleStartTime s' = JNum (tickCount e)).
Proof.
  destruct b; [destruct (isRunning (idleEventTimer s)) eqn:Hr|]; simpl.
  - rewrite handleLock_true_idle_eq by assumption. simpl.
    repeat split; auto. discriminate.
  - rewrite handleLock_true_fresh_eq by assumption. simpl.
    repeat split; auto. discriminate.
  - rewrite handleLock_false_eq. simpl. repeat split; discriminate.
Qed.

(** X8. In every state the object can reach at least one of its two timers
    is running: the poll timer is stopped only by a lock, which leaves the
    heartbeat timer running, and the heartbeat timer is stopped only by a
    poll tick or by an unlock, which leave the poll timer running. *)
Theorem some_timer_always_running (p : platform) (h : list (Signal * Env)) :
  some_timer_running (run p h new_Session) = true.
Proof.
  apply (run_preserves (fun s => some_timer_running s = true));
    try reflexivity; unfold some_timer_running.
  - intros b e s _. destruct (handleLock_timers b e s) as (Hp & Hs & _).
    rewrite Hp, Hs. destruct b; reflexivity.
  - intros e s _ Hpoll. destruct (poll_counts e s) as (Htimer & _).
    rewrite Htimer, Hpoll. reflexivity.
  - intros e s H _. rewrite heartbeat_eq. exact H.
  - intros r e s H. exact H.
  - intros r e s H. exact H.
Qed.

Lemma run_start_known (p : platform) (h : list (Signal * Env)) (s : Session) :
  start_known_while_idle s = true -> start_known_while_idle (run p h s) = true.
Proof.
  apply (run_preserves (fun s => start_known_while_idle s = true));
    unfold start_known_while_idle.
  - intros b e s0 H. destruct b; [destruct (isRunning (idleEventTimer s0)) eqn:Hr|].
    + rewrite handleLock_true_idle_eq by assumption. simpl. rewrite Hr. exact H.
    + rewrite handleLock_true_fresh_eq by assumption. reflexivity.
    + rewrite handleLock_false_eq. reflexivity.
  - intros e s0 H _.
    destruct (probe_isIdle e) eqn:Hi, (isRunning (idleEventTimer s0)) eqn:Hr.
    + rewrite poll_no_edge_eq by congruence. rewrite Hr. exact H.
    + rewrite poll_to_idle_eq by assumption. reflexivity.
    + rewrite poll_to_active_eq by assumption. reflexivity.
    + rewrite poll_no_edge_eq by congruence. rewrite Hr. exact H.
  - intros e s0 H _. rewrite heartbeat_eq. exact H.
  - intros r e s0 H. exact H.
  - intros r e s0 H. exact H.
Qed.

(** X9. In every state the object can reach, while the heartbeat timer is
    running [idleStartTime] holds a number: the timer is only ever started
    right after [idleStartTime] has been assigned, so a heartbeat never
    computes its span from an unset start. *)
Theorem idle_start_known_while_idle (p : platform) (h : list (Signal * Env)) :
  start_known_while_idle (run p h new_Session) = true.
Proof. apply run_start_known. reflexivity. Qed.

(** X10. A lock is an authoritative idle signal: in every state the object
    can reach, after [handleLock(true)] the tracker is idle (the last
    idle-state-changed event has [isIdle = true]), the heartbeat timer is
    running and the poll timer is stopped, whether or not the lock itself
    emitted an event. *)
Theorem lock_leaves_tracker_idle (p : platform) (h : list (Signal * Env)) (e : Env) :
  let s' := exec (handleLock true) e (run p h new_Session) in
  tracker_idle s' = true
  /\ isRunning (idleEventTimer s') = true
  /\ isRunning (checkIdleStateTimer s') = false.
Proof.
  intros s'.
  assert (Hinv : sustain_iff_idle s').
  { apply handleLock_keeps, run_keeps. reflexivity. }
  destruct (handleLock_timers true e (run p h new_Session)) as (Hp & Hs & _).
  fold s' in Hp, Hs. unfold sustain_iff_idle in Hinv.
  rewrite <- Hinv, Hs, Hp. repeat split.
Qed.

(** ** Session signals and the idle tracking *)

Lemma fireSessionEvent_eq (r : string) (e : Env) (s : Session) :
  exec (fireSessionEvent r) e s
  = mkSession (idleEventTimer s) (checkIdleStateTimer s)
              (idleStartTime s) (idleEndTime s)
              (emitted s ++ [session_changed_event r]).
Proof. reflexivity. Qed.

(** X11. Session signals other than lock and unlock never touch the idle
    tracking: a session-end signal with any reason code, and a
    session-change signal with any code other than 7 and 8, leave both
    timers, [idleStartTime] and [idleEndTime] as they were and append exactly
    one event, which is not an idle-state-changed event. *)
Theorem session_signals_keep_idle_tracking (e : Env) (s : Session) :
  (forall l,
      let s' := exec (onQueryEndSession l) e s in
      idleEventTimer s' = idleEventTimer s
      /\ checkIdleStateTimer s' = checkIdleStateTimer s
      /\ idleStartTime s' = idleStartTime s
      /\ idleEndTime s' = idleEndTime s
      /\ tracker_idle s' = tracker_idle s
      /\ exists r, emitted s' = emitted s ++ [session_end_event r])
  /\ (forall w, w <> 7 -> w <> 8 ->
      let s' := exec (onSessionChange w) e s in
      idleEventTimer s' = idleEventTimer s
      /\ checkIdleStateTimer s' = checkIdleStateTimer s
      /\ idleStartTime s' = idleStartTime s
      /\ idleEndTime s' = idleEndTime s
      /\ tracker_idle s' = tracker_idle s
      /\ exists r, emitted s' = emitted s ++ [session_changed_event r]).
Proof.
  split.
  - intros l s'. subst s'. unfold onQueryEndSession, tracker_idle.
    set (r := if l =? 0 then "logoff"
              else if l =? 1 then "restart or shutdown" else "unknown").
    change (emitted (exec (fireSessionEndEvent r) e s))
      with (emitted s ++ [session_end_event r]).
    rewrite last_idle_flag_session_end. repeat split. eauto.
  - intros w H7 H8 s'. subst s'. rewrite onSessionChange_eq.
    assert (Hfire : forall r,
      let s' := exec (fireSessionEvent r) e s in
      idleEventTimer s' = idleEventTimer s
      /\ checkIdleStateTimer s' = checkIdleStateTimer s
      /\ idleStartTime s' = idleStartTime s
      /\ idleEndTime s' = idleEndTime s
      /\ tracker_idle s' = tracker_idle s
      /\ exists r, emitted s' = emitted s ++ [session_changed_event r]).
    { intros r s'. subst s'. rewrite fireSessionEvent_eq. unfold tracker_idle.
      simpl. rewrite last_idle_flag_session_changed. repeat split. eauto. }
    destruct (w =? 3); [apply Hfire|]. destruct (w =? 4); [apply Hfire|].
    destruct (Z.eqb_spec w 7); [contradiction|].
    destruct (Z.eqb_spec w 8); [contradiction|]. apply Hfire.
Qed.

Lemma session_signals_keep_idle_tracking_witness :
  let s := run Win32 [(PollTick, mkEnv 101000 true 60000)] new_Session in
  idleStartTime (exec (onSessionChange 4) (mkEnv 102000 true 61000) s)
  = JNum 41000
  /\ tracker_idle (exec (onSessionChange 4) (mkEnv 102000 true 61000) s) = true.
Proof.
  intros s.
  destruct (session_signals_keep_idle_tracking (mkEnv 102000 true 61000) s)
    as [_ Hchg].
  destruct (Hchg 4) as (_ & _ & Hstart & _ & Hidle & _); [lia | lia |].
  split; [rewrite Hstart | rewrite Hidle]; reflexivity.
Defined.

Lemma lock_signal_eq (b : bool) (r : string) (e : Env) (s : Session) :
  exec (handleLock b ;; fireSessionEvent r) e s
  = mkSession (idleEventTimer (exec (handleLock b) e s))
              (checkIdleStateTimer (exec (handleLock b) e s))
              (idleStartTime (exec (handleLock b) e s))
              (idleEndTime (exec (handleLock b) e s))
              (emitted (exec (handleLock b) e s) ++ [session_changed_event r]).
Proof. rewrite exec_bind. apply fireSessionEvent_eq. Qed.

Lemma win32_lock_code (e : Env) (s : Session) :
  exec (deliver Win32 (WtsSessionChange 7)) e s
  = exec (handleLock true ;; fireSessionEvent "lock") e s.
Proof. simpl deliver. rewrite onSessionChange_eq. reflexivity. Qed.

Lemma win32_unlock_code (e : Env) (s : Session) :
  exec (deliver Win32 (WtsSessionChange 8)) e s
  = exec (handleLock false ;; fireSessionEvent "unlock") e s.
Proof. simpl deliver. rewrite onSessionChange_eq. reflexivity. Qed.

(** X12. The Windows session-change codes 7 and 8 have exactly the effect
    of the macOS screen-locked and screen-unlocked notifications: the same
    resulting object and the same emitted events. *)
Theorem win32_codes_match_darwin_notifications (e : Env) (s : Session) :
  exec (deliver Win32 (WtsSessionChange 7)) e s
  = exec (deliver Darwin ScreenIsLocked) e s
  /\ exec (deliver Win32 (WtsSessionChange 8)) e s
     = exec (deliver Darwin ScreenIsUnlocked) e s.
Proof. split; [apply win32_lock_code | apply win32_unlock_code]. Qed.

(** X13. On a lock or unlock signal the idle-state-changed event, if any,
    is emitted before the session-changed event.  An unlock always emits
    two events, [isIdle = false] and then reason "unlock"; a lock emits
    [isIdle = true] and then reason "lock" when the heartbeat timer was
    stopped, and only reason "lock" when it was already running. *)
Theorem lock_signal_event_order (e : Env) (s : Session) :
  events_of (deliver Darwin ScreenIsUnlocked) e s
  = [idle_event (js_or (js_sub (JNum (tickCount e)) (idleStartTime s))
                       (JNum (probe_elapsedTime e))) false;
     session_changed_event "unlock"]
  /\ events_of (deliver Win32 (WtsSessionChange 8)) e s
     = events_of (deliver Darwin ScreenIsUnlocked) e s
  /\ events_of (deliver Darwin ScreenIsLocked) e s
     = (if isRunning (idleEventTimer s) then []
        else [idle_event (JNum (probe_elapsedTime e)) true])
       ++ [session_changed_event "lock"]
  /\ events_of (deliver Win32 (WtsSessionChange 7)) e s
     = events_of (deliver Darwin ScreenIsLocked) e s.
Proof.
  assert (Hun : events_of (deliver Darwin ScreenIsUnlocked) e s
    = [idle_event (js_or (js_sub (JNum (tickCount e)) (idleStartTime s))
                         (JNum (probe_elapsedTime e))) false;
       session_changed_event "unlock"]).
  { apply events_of_app. simpl deliver. unfold onScreenIsUnlocked.
    rewrite lock_signal_eq, handleLock_false_eq. simpl.
    rewrite <- app_assoc. reflexivity. }
  assert (Hlk : events_of (deliver Darwin ScreenIsLocked) e s
    = (if isRunning (idleEventTimer s) then []
       else [idle_event (JNum (probe_elapsedTime e)) true])
      ++ [session_changed_event "lock"]).
  { apply events_of_app. simpl deliver. unfold onScreenIsLocked.
    rewrite lock_signal_eq. destruct (isRunning (idleEventTimer s)) eqn:Hr.
    - rewrite handleLock_true_idle_eq by assumption. reflexivity.
    - rewrite handleLock_true_fresh_eq by assumption. simpl.
      rewrite <- app_assoc. reflexivity. }
  split; [exact Hun|]. split; [|split; [exact Hlk|]].
  - unfold events_of. rewrite win32_unlock_code. reflexivity.
  - unfold events_of. rewrite win32_lock_code. reflexivity.
Qed.

(** ** What each platform can emit *)

Lemma idle_payload_platform_ok (p : platform) (ev : Event) :
  is_idle_payload ev = true -> platform_event_ok p ev = true.
Proof.
  unfold is_idle_payload, platform_event_ok.
  destruct (ev_payload ev), p; auto; discriminate.
Qed.

Lemma handleLock_idle_only (b : bool) (e : Env) (s : Session) :
  exists evs, emitted (exec (handleLock b) e s) = emitted s ++ evs
              /\ forallb is_idle_payload evs = true.
Proof.
  destruct b; [destruct (isRunning (idleEventTimer s)) eqn:Hr|].
  - rewrite handleLock_true_idle_eq by assumption.
    exists []. split; [simpl; rewrite app_nil_r|]; reflexivity.
  - rewrite handleLock_true_fresh_eq by assumption.
    eexists; split; reflexivity.
  - rewrite handleLock_false_eq. eexists; split; reflexivity.
Qed.

Lemma poll_idle_only (e : Env) (s : Session) :
  exists evs, emitted (exec checkIdleStateTimer_callback e s) = emitted s ++ evs
              /\ forallb is_idle_payload evs = true.
Proof.
  destruct (probe_isIdle e) eqn:Hi, (isRunning (idleEventTimer s)) eqn:Hr.
  - rewrite poll_no_edge_eq by congruence.
    exists []. split; [rewrite app_nil_r|]; reflexivity.
  - rewrite poll_to_idle_eq by assumption. eexists; split; reflexivity.
  - rewrite poll_to_active_eq by assumption. eexists; split; reflexivity.
  - rewrite poll_no_edge_eq by congruence.
    exists []. split; [rewrite app_nil_r|]; reflexivity.
Qed.

Lemma deliver_platform_log (p : platform) (sig : Signal) (e : Env) (s : Session) :
  exists evs, emitted (exec (deliver p sig) e s) = emitted s ++ evs
              /\ forallb (platform_event_ok p) evs = true.
Proof.
  assert (Hnone : exists evs, emitted s = emitted s ++ evs
                              /\ forallb (platform_event_ok p) evs = true).
  { exists []. split; [rewrite app_nil_r|]; reflexivity. }
  assert (Hidle : forall s',
            (exists evs, emitted s' = emitted s ++ evs
                         /\ forallb is_idle_payload evs = true) ->
            exists evs, emitted s' = emitted s ++ evs
                        /\ forallb (platform_event_ok p) evs = true).
  { intros s' (evs & Hlog & Hall). exists evs. split; [exact Hlog|].
    apply forallb_forall. intros ev Hin. apply idle_payload_platform_ok.
    rewrite forallb_forall in Hall. apply Hall, Hin. }
  assert (Hlock : forall b r,
            platform_event_ok p (session_changed_event r) = true ->
            exists evs,
              emitted (exec (handleLock b ;; fireSessionEvent r) e s)
              = emitted s ++ evs
              /\ forallb (platform_event_ok p) evs = true).
  { intros b r Hr. rewrite lock_signal_eq. simpl emitted.
    destruct (Hidle _ (handleLock_idle_only b e s)) as (evs & Hlog & Hall).
    exists (evs ++ [session_changed_event r]). split.
    - rewrite Hlog, app_assoc. reflexivity.
    - rewrite forallb_app, Hall. simpl. rewrite Hr. reflexivity. }
  destruct sig as [| |l|w| |]; simpl deliver.
  - unfold exec, when. destruct (isRunning (checkIdleStateTimer s));
      [apply Hidle, poll_idle_only | exact Hnone].
  - unfold exec, when. destruct (isRunning (idleEventTimer s)); [|exact Hnone].
    apply Hidle. fold (exec idleEventTimer_callback e s).
    rewrite heartbeat_eq. eexists; split; reflexivity.
  - destruct p; try exact Hnone.
    destruct (deliver_log Win32 (QueryEndSession l) e s) as (evs & Hlog & _).
    exists evs. split; [exact Hlog|].
    apply forallb_forall. intros ev _. unfold platform_event_ok.
    destruct (ev_payload ev); reflexivity.
  - destruct p; try exact Hnone.
    destruct (deliver_log Win32 (WtsSessionChange w) e s) as (evs & Hlog & _).
    exists evs. split; [exact Hlog|].
    apply forallb_forall. intros ev _. unfold platform_event_ok.
    destruct (ev_payload ev); reflexivity.
  - destruct p; try exact Hnone. apply Hlock. reflexivity.
  - destruct p; try exact Hnone. apply Hlock. reflexivity.
Qed.

(** X14. What reaches subscribers depends on the platform the object was
    built on: on macOS the only events besides idle-state-changed are
    session-changed with reason "lock" or "unlock" (never session-end, never
    a remote-connect, remote-disconnect or unknown reason), and on any
    platform other than Windows and macOS only idle-state-changed events are
    ever emitted. *)
Theorem emitted_events_by_platform (p : platform) (h : list (Signal * Env)) :
  forallb (platform_event_ok p) (emitted (run p h new_Session)) = true.
Proof.
  assert (Hgen : forall s, forallb (platform_event_ok p) (emitted s) = true ->
                           forallb (platform_event_ok p) (emitted (run p h s)) = true).
  { induction h as [|[sig e] h IH]; intros s Hs; simpl.
    - exact Hs.
    - apply IH. destruct (deliver_platform_log p sig e s) as (evs & Hlog & Hall).
      rewrite Hlog, forallb_app, Hs, Hall. reflexivity. }
  apply Hgen. reflexivity.
Qed.

(** ** Idle ends found by polling, and polling after an unlock *)

(** X15. A poll tick ends an idle span only when there is one: in every
    state the object can reach, if a poll tick emits an [isIdle = false]
    event then the tracker was idle before the tick and [idleStartTime]
    held a number, so the reported span is computed from a recorded start. *)
Theorem poll_idle_end_has_start (p : platform) (h : list (Signal * Env)) (e : Env) :
  let s := run p h new_Session in
  count_idle false (events_of checkIdleStateTimer_callback e s) <> 0%nat ->
  tracker_idle s = true
  /\ probe_isIdle e = false
  /\ exists t0, idleStartTime s = JNum t0
                /\ events_of checkIdleStateTimer_callback e s
                   = [idle_event (js_or (JNum (tickCount e - probe_elapsedTime e - t0))
                                        (JNum (probe_elapsedTime e))) false].
Proof.
  intros s Hcount.
  assert (Hinv : sustain_iff_idle s) by (apply run_keeps; reflexivity).
  assert (Hknown : start_known_while_idle s = true)
    by (apply run_start_known; reflexivity).
  unfold sustain_iff_idle in Hinv. unfold start_known_while_idle in Hknown.
  destruct (probe_isIdle e) eqn:Hi, (isRunning (idleEventTimer s)) eqn:Hr.
  - exfalso. apply Hcount.
    rewrite (events_of_app _ e s []); [reflexivity|].
    rewrite poll_no_edge_eq by congruence. rewrite app_nil_r. reflexivity.
  - exfalso. apply Hcount.
    rewrite (events_of_app _ e s [idle_event (JNum (probe_elapsedTime e)) true]);
      [reflexivity|].
    rewrite poll_to_idle_eq by assumption. reflexivity.
  - split; [congruence|]. split; [reflexivity|].
    destruct (idleStartTime s) as [| |t0] eqn:Hstart; try discriminate Hknown.
    exists t0. split; [reflexivity|].
    apply events_of_app. rewrite poll_to_active_eq by assumption.
    rewrite Hstart. reflexivity.
  - exfalso. apply Hcount.
    rewrite (events_of_app _ e s []); [reflexivity|].
    rewrite poll_no_edge_eq by congruence. rewrite app_nil_r. reflexivity.
Qed.

Lemma poll_idle_end_has_start_witness :
  let s := run Win32 [(PollTick, mkEnv 101000 true 60000)] new_Session in
  tracker_idle s = true
  /\ exists t0, idleStartTime s = JNum t0.
Proof.
  intros s.
  destruct (poll_idle_end_has_start Win32 [(PollTick, mkEnv 101000 true 60000)]
              (mkEnv 105000 false 20)) as (Hidle & _ & t0 & Hstart & _).
  - vm_compute. discriminate.
  - split; [exact Hidle | exists t0; exact Hstart].
Defined.

(** X16. An unlock re-arms idle detection from any state: after
    [handleLock(false)] the next poll tick is delivered, and if the probe
    reports idle on it the tracker goes idle again with a fresh back-dated
    [idleStartTime] and one [isIdle = true] event; if the probe reports
    not-idle the tick changes nothing. *)
Theorem poll_after_unlock (p : platform) (e2 e3 : Env) (s : Session) :
  let s2 := exec (handleLock false) e2 s in
  let s3 := exec (deliver p PollTick) e3 s2 in
  if probe_isIdle e3
  then emitted s3 = emitted s2 ++ [idle_event (JNum (probe_elapsedTime e3)) true]
       /\ idleStartTime s3 = JNum (tickCount e3 - probe_elapsedTime e3)
       /\ isRunning (idleEventTimer s3) = true
       /\ isRunning (checkIdleStateTimer s3) = true
  else s3 = s2.
Proof.
  intros s2 s3.
  assert (Hs3 : s3 = exec checkIdleStateTimer_callback e3 s2).
  { subst s3 s2. rewrite handleLock_false_eq. reflexivity. }
  assert (Hoff : isRunning (idleEventTimer s2) = false).
  { subst s2. rewrite handleLock_false_eq. reflexivity. }
  assert (Hpoll : isRunning (checkIdleStateTimer s2) = true).
  { subst s2. rewrite handleLock_false_eq. reflexivity. }
  rewrite Hs3. destruct (probe_isIdle e3) eqn:Hi.
  - rewrite poll_to_idle_eq by assumption. simpl. repeat split. exact Hpoll.
  - apply poll_no_edge_eq. congruence.
Qed.

(** ** The heartbeat under the timer contract *)

Lemma handleLock_heartbeat_timer (b : bool) (e : Env) (s : Session) :
  let s' := exec (handleLock b) e s in
  interval (idleEventTimer s') = interval (idleEventTimer s)
  /\ ((isRunning (idleEventTimer s') = isRunning (idleEventTimer s)
       /\ idleStartTime s' = idleStartTime s)
      \/ (isRunning (idleEventTimer s) = false
          /\ isRunning (idleEventTimer s') = true
          /\ exists t0, idleStartTime s' = JNum t0 /\ t0 <= tickCount e)
      \/ isRunning (idleEventTimer s') = false).
Proof.
  destruct b; [destruct (isRunning (idleEventTimer s)) eqn:Hr|]; simpl.
  - rewrite handleLock_true_idle_eq by assumption. simpl. auto.
  - rewrite handleLock_true_fresh_eq by assumption. simpl.
    split; [reflexivity|]. right; left. repeat split.
    exists (tickCount e). split; [reflexivity | lia].
  - rewrite handleLock_false_eq. simpl. auto.
Qed.

Lemma poll_heartbeat_timer (e : Env) (s : Session) :
  0 <= probe_elapsedTime e ->
  let s' := exec checkIdleStateTimer_callback e s in
  interval (idleEventTimer s') = interval (idleEventTimer s)
  /\ ((isRunning (idleEventTimer s') = isRunning (idleEventTimer s)
       /\ idleStartTime s' = idleStartTime s)
      \/ (isRunning (idleEventTimer s) = false
          /\ isRunning (idleEventTimer s') = true
          /\ exists t0, idleStartTime s' = JNum t0 /\ t0 <= tickCount e)
      \/ isRunning (idleEventTimer s') = false).
Proof.
  intros Hel.
  destruct (probe_isIdle e) eqn:Hi, (isRunning (idleEventTimer s)) eqn:Hr; simpl.
  - rewrite poll_no_edge_eq by congruence. auto.
  - rewrite poll_to_idle_eq by assumption. simpl.
    split; [reflexivity|]. right; left. repeat split.
    exists (tickCount e - probe_elapsedTime e). split; [reflexivity | lia].
  - rewrite poll_to_active_eq by assumption. simpl. auto.
  - rewrite poll_no_edge_eq by congruence. auto.
Qed.

Lemma deliver_heartbeat_timer (p : platform) (sig : Signal) (e : Env) (s : Session) :
  0 <= probe_elapsedTime e ->
  let s' := exec (deliver p sig) e s in
  interval (idleEventTimer s') = interval (idleEventTimer s)
  /\ ((isRunning (idleEventTimer s') = isRunning (idleEventTimer s)
       /\ idleStartTime s' = idleStartTime s)
      \/ (isRunning (idleEventTimer s) = false
          /\ isRunning (idleEventTimer s') = true
          /\ exists t0, idleStartTime s' = JNum t0 /\ t0 <= tickCount e)
      \/ isRunning (idleEventTimer s') = false).
Proof.
  intros Hel.
  assert (Hsame : interval (idleEventTimer s) = interval (idleEventTimer s)
    /\ ((isRunning (idleEventTimer s) = isRunning (idleEventTimer s)
         /\ idleStartTime s = idleStartTime s)
        \/ (isRunning (idleEventTimer s) = false
            /\ isRunning (idleEventTimer s) = true
            /\ exists t0, idleStartTime s = JNum t0 /\ t0 <= tickCount e)
        \/ isRunning (idleEventTimer s) = false)) by auto.
  assert (Hlock : forall b r,
    let s' := exec (handleLock b ;; fireSessionEvent r) e s in
    interval (idleEventTimer s') = interval (idleEventTimer s)
    /\ ((isRunning (idleEventTimer s') = isRunning (idleEventTimer s)
         /\ idleStartTime s' = idleStartTime s)
        \/ (isRunning (idleEventTimer s) = false
            /\ isRunning (idleEventTimer s') = true
            /\ exists t0, idleStartTime s' = JNum t0 /\ t0 <= tickCount e)
        \/ isRunning (idleEventTimer s') = false)).
  { intros b r. simpl. rewrite lock_signal_eq. simpl.
    apply handleLock_heartbeat_timer. }
  destruct sig as [| |l|w| |]; simpl deliver.
  - unfold exec, when. destruct (isRunning (checkIdleStateTimer s));
      [apply poll_heartbeat_timer, Hel | exact Hsame].
  - unfold exec, when. destruct (isRunning (idleEventTimer s)) eqn:Hr;
      [|simpl; rewrite ?Hr; auto].
    fold (exec idleEventTimer_callback e s). rewrite heartbeat_eq. simpl.
    rewrite ?Hr. auto.
  - destruct p; exact Hsame.
  - destruct p; [|exact Hsame..]. rewrite onSessionChange_eq.
    destruct (w =? 3); [exact Hsame|]. destruct (w =? 4); [exact Hsame|].
    destruct (w =? 7); [apply Hlock|]. destruct (w =? 8); [apply Hlock|].
    exact Hsame.
  - destruct p; [exact Hsame | apply Hlock | exact Hsame].
  - destruct p; [exact Hsame | apply Hlock | exact Hsame].
Qed.

Lemma deliver_start_before_armed (p : platform) (sig : Signal) (e : Env)
      (s : Session) (armed : option Z) :
  0 <= probe_elapsedTime e ->
  start_before_armed s armed ->
  start_before_armed (exec (deliver p sig) e s)
                     (armed_after s (exec (deliver p sig) e s) e armed).
Proof.
  intros Hel [Hiv Hstart].
  destruct (deliver_heartbeat_timer p sig e s Hel) as (Hiv' & Hcases).
  unfold start_before_armed, armed_after.
  split; [congruence|].
  destruct Hcases as [[Hrun Hst] | [(Hoff & Hon & t0 & Ht0 & Hle) | Hoff]].
  - rewrite Hrun, Hst. intros Hon. rewrite Hon. simpl. apply Hstart, Hon.
  - rewrite Hoff, Hon. simpl. intros _. exists t0, (tickCount e). auto.
  - rewrite Hoff. discriminate.
Qed.

Lemma well_timed_prefix (p : platform) (h1 h2 : list (Signal * Env)) :
  forall (s : Session) (armed : option Z),
    start_before_armed s armed ->
    well_timed p (h1 ++ h2) s armed = true ->
    exists armed',
      start_before_armed (run p h1 s) armed'
      /\ well_timed p h2 (run p h1 s) armed' = true.
Proof.
  induction h1 as [|[sig e] h1 IH]; intros s armed Hinv Hwt.
  - exists armed. auto.
  - simpl in Hwt. apply andb_prop in Hwt. destruct Hwt as [Hwt Hrest].
    apply andb_prop in Hwt. destruct Hwt as [Hel _].
    apply Z.leb_le in Hel. simpl run.
    apply (IH _ _ (deliver_start_before_armed p sig e s armed Hel Hinv) Hrest).
Qed.

(** C7. Under the timer contract (a heartbeat fires no sooner than the
    timer's interval after the timer was started, and the probe's elapsed
    time is never negative), at every heartbeat of every history of a new
    object: the heartbeat fires only while the heartbeat timer is running;
    it then emits one idle-state-changed event with [isIdle = true] and
    [elapsedTime = now - idleStartTime], a number of at least 60000; and it
    leaves [idleStartTime], [idleEndTime] and both timers unchanged. *)
Theorem heartbeat_reports_idle_span (p : platform) (h1 h2 : list (Signal * Env))
        (e : Env) :
  well_timed p (h1 ++ (Heartbeat, e) :: h2) new_Session None = true ->
  let s := run p h1 new_Session in
  let s' := exec (deliver p Heartbeat) e s in
  idleEventTimer s' = idleEventTimer s
  /\ checkIdleStateTimer s' = checkIdleStateTimer s
  /\ idleStartTime s' = idleStartTime s
  /\ idleEndTime s' = idleEndTime s
  /\ emitted s' = emitted s ++ events_of (deliver p Heartbeat) e s
  /\ (if isRunning (idleEventTimer s)
      then events_of (deliver p Heartbeat) e s
           = [idle_event (js_sub (JNum (tickCount e)) (idleStartTime s)) true]
           /\ exists t0, idleStartTime s = JNum t0
                         /\ t0 + 60000 <= tickCount e
      else s' = s /\ events_of (deliver p Heartbeat) e s = []).
Proof.
  intros Hwt s s'.
  assert (Hinit : start_before_armed new_Session None).
  { split; [reflexivity | discriminate]. }
  destruct (well_timed_prefix p h1 _ new_Session None Hinit Hwt)
    as (armed & [Hiv Hstart] & Hhere).
  fold s in Hiv, Hstart, Hhere.
  destruct (isRunning (idleEventTimer s)) eqn:Hr.
  - assert (Hs' : s' = exec idleEventTimer_callback e s).
    { subst s'. unfold deliver, exec, when. rewrite Hr. reflexivity. }
    destruct (Hstart eq_refl) as (t0 & a & Ht0 & Ha & Hle).
    simpl in Hhere. fold s in Hhere. rewrite Hr in Hhere. simpl in Hhere.
    apply andb_prop in Hhere. destruct Hhere as [Hhere _].
    apply andb_prop in Hhere. destruct Hhere as [_ Hdue].
    unfold heartbeat_due in Hdue. rewrite Ha, Hiv in Hdue.
    apply Z.leb_le in Hdue.
    assert (Hlog : emitted s'
                   = emitted s ++ [idle_event (JNum (tickCount e - t0)) true]).
    { rewrite Hs', heartbeat_eq, Ht0. simpl.
      rewrite js_or_num_nonzero by lia. reflexivity. }
    assert (Hev : events_of (deliver p Heartbeat) e s
                  = [idle_event (JNum (tickCount e - t0)) true]).
    { apply events_of_app. exact Hlog. }
    rewrite Hev, Hlog, Hs', heartbeat_eq, Ht0. simpl.
    repeat split. exists t0. split; [reflexivity | lia].
  - assert (Hs' : s' = s).
    { subst s'. unfold deliver, exec, when. rewrite Hr. reflexivity. }
    assert (Hev : events_of (deliver p Heartbeat) e s = []).
    { apply events_of_app. fold s'. rewrite Hs', app_nil_r. reflexivity. }
    rewrite Hev, Hs', app_nil_r. repeat split.
Qed.

Lemma heartbeat_reports_idle_span_witness :
  let h1 := [(PollTick, mkEnv 101000 true 60000);
             (Heartbeat, mkEnv 161000 true 120000)] in
  let e := mkEnv 221000 true 180000 in
  well_timed Win32 (h1 ++ [(Heartbeat, e)]) new_Session None = true
  /\ events_of (deliver Win32 Heartbeat) e (run Win32 h1 new_Session)
     = [idle_event (JNum 180000) true]
  /\ idleStartTime (exec (deliver Win32 Heartbeat) e (run Win32 h1 new_Session))
     = JNum 41000.
Proof.
  intros h1 e.
  assert (Hwt : well_timed Win32 (h1 ++ [(Heartbeat, e)]) new_Session None = true)
    by reflexivity.
  destruct (heartbeat_reports_idle_span Win32 h1 [] e Hwt)
    as (_ & _ & Hst & _ & _ & Hfire).
  split; [exact Hwt|]. split.
  - destruct Hfire as [Hev _]. etransitivity; [exact Hev | reflexivity].
  - etransitivity; [exact Hst | reflexivity].
Defined.
